(** * Transcript pipeline: loading, cleaning, text normalisation, analysis

    A shallow embedding of [data_pipeline.py] and [summarizer.py].

    Conventions of the embedding.
    - A parsed JSON document is a [pyobj]; a Python [dict] is an association
      list in insertion order (keys are distinct, as in a Python dict).
    - A raised Python exception is the [Raise] branch of [result].
    - The data model types the text fields of a turn ([message], [agent],
      [sentiment], [turn_rating]) and [article_url] as string-or-null, so a
      table cell is an [option string] ([None] is the null cell);
      [knowledge_source] is kept as the opaque [pyobj] it was loaded as. The
      embedding is exact on stores that follow this typing; [cell_of] reads a
      field of any other JSON type as null, where the code keeps the value
      (a number stays in the table, a list makes [drop_duplicates] raise).
      A statement about what a load returns therefore carries [typed_store]
      as a hypothesis.
    - Strings are byte strings; their order ([String.le]) is the order of
      Python's [str] on UTF-8 text.
    - NLTK, the [str] methods and the summarisation model are libraries
      outside the repository: they are parameters (record [TextEnv], the
      [summarizer] argument), total functions, the NLTK data being installed.
      What the process does with the NLTK resources is kept in a log of
      events that the text functions thread through their calls. *)

From stdpp Require Import base option list sorting strings gmap.
From Stdlib Require Import ZArith Ascii.

Open Scope string_scope.
Open Scope list_scope.

(** ** Python values, exceptions *)

#[local] Set Warnings "-register-all".

Inductive pyobj : Type :=
  | PyNone
  | PyStr (s : string)
  | PyInt (n : Z)
  | PyList (items : list pyobj)
  | PyDict (entries : list (string * pyobj)).

Inductive exn : Type :=
  | FileNotFoundError
  | JSONDecodeError
  | AttributeError
  | TypeError
  | KeyError
  | IndexError
  | RuntimeError (msg : string)
  | IsADirectoryError
  | PermissionError
  | UnicodeDecodeError.

Inductive result (A : Type) : Type :=
  | Ok (a : A)
  | Raise (e : exn).
Arguments Ok {A} a.
Arguments Raise {A} e.

#[global] Instance result_ret : MRet result := fun _ a => Ok a.
#[global] Instance result_bind : MBind result := fun _ _ f m =>
  match m with
  | Ok a => f a
  | Raise e => Raise e
  end.
#[global] Instance result_fmap : FMap result := fun _ _ f m =>
  match m with
  | Ok a => Ok (f a)
  | Raise e => Raise e
  end.

Definition is_str (o : pyobj) : bool :=
  match o with
  | PyStr _ => true
  | _ => false
  end.

Definition is_dict (o : pyobj) : bool :=
  match o with
  | PyDict _ => true
  | _ => false
  end.

(** [d.get(k)] on a dict. *)
Fixpoint dict_get (d : list (string * pyobj)) (k : string) : option pyobj :=
  match d with
  | [] => None
  | (k', v) :: d' => if decide (k' = k) then Some v else dict_get d' k
  end.

(** [o.get(k, dflt)]: only a dict has the method; [o.get(k)] is
    [o.get(k, None)]. *)
Definition py_get (o : pyobj) (k : string) (dflt : pyobj) : result pyobj :=
  match o with
  | PyDict d => Ok (default dflt (dict_get d k))
  | _ => Raise AttributeError
  end.

(** [o.items()]. *)
Definition py_items (o : pyobj) : result (list (string * pyobj)) :=
  match o with
  | PyDict d => Ok d
  | _ => Raise AttributeError
  end.

(** [for x in o]: a list yields its items, a dict its keys, a string its
    characters; [None] and numbers are not iterable. *)
Definition py_iter (o : pyobj) : result (list pyobj) :=
  match o with
  | PyList l => Ok l
  | PyDict d => Ok (PyStr ∘ fst <$> d)
  | PyStr s => Ok ((fun c => PyStr (String c "")) <$> String.list_ascii_of_string s)
  | PyNone | PyInt _ => Raise TypeError
  end.

(** A string-or-null cell from a loaded field value; exact for a field that
    is a string, null or absent (see [typed_store]). *)
Definition cell_of (o : pyobj) : option string :=
  match o with
  | PyStr s => Some s
  | _ => None
  end.

(** ** Tables *)

Record FlatRecord : Type := {
  transcript_id : string;
  article_url : option string;
  message : option string;
  agent : option string;
  sentiment : option string;
  knowledge_source : pyobj;
  turn_rating : option string
}.

(** A [pandas.DataFrame]. [pd.DataFrame([])] has no rows and no columns, which
    is not the same frame as one whose rows were all filtered away: selecting
    a column of the former by label is a [KeyError]. *)
Inductive DataFrame (R : Type) : Type :=
  | NoColumns
  | Frame (rows : list R).
Arguments NoColumns {R}.
Arguments Frame {R} rows.

Definition pd_DataFrame {R} (records : list R) : DataFrame R :=
  match records with
  | [] => NoColumns
  | _ => Frame records
  end.

Definition frame_rows {R} (df : DataFrame R) : list R :=
  match df with
  | NoColumns => []
  | Frame rows => rows
  end.

(** The elements whose key no earlier element has, in their order: what
    [drop_duplicates(keep='first')] keeps of the rows and [unique()] of the
    values of a column. *)
Fixpoint first_seen `{Countable K} {A} (key : A → K) (seen : gset K)
    (l : list A) : list A :=
  match l with
  | [] => []
  | x :: l' =>
      if decide (key x ∈ seen)
      then first_seen key seen l'
      else x :: first_seen key ({[key x]} ∪ seen) l'
  end.

(** ** DataLoader *)

Module DataLoader.

(** What [open(filepath, 'r')] followed by [json.load] finds at a path:
    nothing, a text that is no JSON document, a JSON document, a directory, a
    file the process may not read, or bytes that are no text in the encoding
    of [open]. The last three exist for [os.path.exists]. *)
Inductive file : Type :=
  | NoFile
  | NotJson
  | Json (v : pyobj)
  | Directory
  | Unreadable
  | NotText.

Definition filesystem : Type := string → file.

Definition path_exists (fs : filesystem) (filepath : string) : bool :=
  match fs filepath with
  | NoFile => false
  | _ => true
  end.

Definition load_data (fs : filesystem) (filepath : string) : result pyobj :=
  match fs filepath with
  | NoFile => Raise FileNotFoundError
  | NotJson => Raise JSONDecodeError
  | Json v => Ok v
  | Directory => Raise IsADirectoryError
  | Unreadable => Raise PermissionError
  | NotText => Raise UnicodeDecodeError
  end.

(** The [record = {...}] of the inner loop. *)
Definition turn_record (tid : string) (url : pyobj) (turn : pyobj)
    : result FlatRecord :=
  m ← py_get turn "message" PyNone;
  a ← py_get turn "agent" PyNone;
  s ← py_get turn "sentiment" PyNone;
  k ← py_get turn "knowledge_source" PyNone;
  t ← py_get turn "turn_rating" PyNone;
  mret {| transcript_id := tid;
          article_url := cell_of url;
          message := cell_of m;
          agent := cell_of a;
          sentiment := cell_of s;
          knowledge_source := k;
          turn_rating := cell_of t |}.

(** One iteration of the outer loop: the records of one transcript. *)
Definition transcript_records (entry : string * pyobj)
    : result (list FlatRecord) :=
  let '(tid, data) := entry in
  url ← py_get data "article_url" PyNone;
  content ← py_get data "content" (PyList []);
  turns ← py_iter content;
  mapM (turn_record tid url) turns.

Definition flatten (raw_data : pyobj) : result (list FlatRecord) :=
  entries ← py_items raw_data;
  per_transcript ← mapM transcript_records entries;
  mret (mjoin per_transcript).

Definition to_dataframe (fs : filesystem) (filepath : string)
    : result (DataFrame FlatRecord) :=
  raw_data ← load_data fs filepath;
  pd_DataFrame <$> flatten raw_data.

End DataLoader.

(** ** DataCleaner *)

Module DataCleaner.

(** The columns of [subset=['transcript_id', 'agent', 'message']]. *)
Definition dup_key (r : FlatRecord)
    : string * option string * option string :=
  (transcript_id r, agent r, message r).

(** [drop_duplicates(subset=..., keep='first')]: a row goes when an earlier
    row has the same values in the subset columns; null cells compare equal
    to each other. *)
Definition drop_duplicates (rows : list FlatRecord) : list FlatRecord :=
  first_seen dup_key ∅ rows.

(** An empty frame is returned as it is, before the subset is looked at. *)
Definition remove_duplicates (df : DataFrame FlatRecord)
    : result (DataFrame FlatRecord) :=
  match df with
  | NoColumns => Ok NoColumns
  | Frame rows => Ok (Frame (drop_duplicates rows))
  end.

Definition complete (r : FlatRecord) : Prop :=
  message r ≠ None ∧ agent r ≠ None.

#[global] Instance complete_dec r : Decision (complete r).
Proof. unfold complete. apply _. Defined.

(** [dropna(subset=['message', 'agent'])]: the subset labels are looked up
    among the columns first. *)
Definition handle_missing_values (df : DataFrame FlatRecord)
    : result (DataFrame FlatRecord) :=
  match df with
  | NoColumns => Raise KeyError
  | Frame rows => Ok (Frame (filter complete rows))
  end.

Definition clean_data (df : DataFrame FlatRecord)
    : result (DataFrame FlatRecord) :=
  df1 ← remove_duplicates df;
  handle_missing_values df1.

End DataCleaner.

(** ** DataPreprocessor *)

(** What the process does with the NLTK resources, in program order. *)
Inductive event : Type :=
  | Download (package : string)   (* nltk.download(package) *)
  | StopwordsWords                (* stopwords.words('english') *)
  | BuildStopSet                  (* set(...) of the word list *)
  | NewLemmatizer.                (* WordNetLemmatizer() *)

#[global] Instance event_eq_dec : EqDecision event.
Proof. solve_decision. Defined.

(** A computation that appends to the log of resource events. *)
Definition traced (A : Type) : Type := list event → A * list event.

#[global] Instance traced_ret : MRet traced := fun _ a log => (a, log).
#[global] Instance traced_bind : MBind traced := fun _ _ f m log =>
  let '(a, log') := m log in f a log'.

Definition emit (e : event) : traced unit := fun log => (tt, log ++ [e]).

Fixpoint traced_map {A B} (f : A → traced B) (l : list A) : traced (list B) :=
  match l with
  | [] => mret []
  | x :: l' => y ← f x; ys ← traced_map f l'; mret (y :: ys)
  end.

(** The library functions the text pipeline calls. *)
Record TextEnv : Type := {
  str_lower : string → string;            (* str.lower *)
  word_tokenize : string → list string;   (* nltk.tokenize.word_tokenize *)
  stopwords_english : list string;        (* stopwords.words('english') *)
  lemmatize : string → string             (* WordNetLemmatizer().lemmatize *)
}.

(** [string.punctuation]; the second character is the double quote. *)
Definition punctuation : string :=
  String "!"%char (String "034"%char "#$%&'()*+,-./:;<=>?@[\]^_`{|}~").

(** [t in s] for two strings: [t] occurs in [s] as a contiguous run. *)
Fixpoint str_in (t s : string) : bool :=
  String.prefix t s ||
  match s with
  | "" => false
  | String _ s' => str_in t s'
  end.

(** Lines 11-16 of data_pipeline.py, run when the module is imported. *)
Definition module_import : traced unit :=
  _ ← emit (Download "stopwords");
  _ ← emit (Download "punkt");
  _ ← emit (Download "wordnet");
  _ ← emit StopwordsWords;
  emit NewLemmatizer.

Module DataPreprocessor.

Record NormalizedRecord : Type := {
  flat : FlatRecord;
  processed_message : string
}.

(** The condition of the token comprehension. *)
Definition keep_token (stop_words : gset string) (token : string) : bool :=
  bool_decide (token ∉ stop_words) && negb (str_in token punctuation).

Definition preprocess_text (env : TextEnv) (text : pyobj) : traced string :=
  _ ← emit NewLemmatizer;
  _ ← emit StopwordsWords;
  _ ← emit BuildStopSet;
  let stop_words : gset string := list_to_set (stopwords_english env) in
  match text with
  | PyStr text =>
      let text := str_lower env text in
      let tokens := word_tokenize env text in
      let processed_tokens := List.filter (keep_token stop_words) tokens in
      let lemmatized_tokens := lemmatize env <$> processed_tokens in
      mret (String.concat " " lemmatized_tokens)
  | _ => mret ""
  end.

(** The Python object in a cell of an object column. *)
Definition cell_value (c : option string) : pyobj :=
  match c with
  | Some s => PyStr s
  | None => PyNone
  end.

(** One row of [self.df[column].apply(self.preprocess_text)], put next to
    the row it was computed from. *)
Definition with_processed (env : TextEnv) (r : FlatRecord)
    : traced NormalizedRecord :=
  p ← preprocess_text env (cell_value (message r));
  mret {| flat := r; processed_message := p |}.

(** [apply_text_preprocessing(column='message')]. *)
Definition apply_text_preprocessing (env : TextEnv) (df : DataFrame FlatRecord)
    : traced (result (DataFrame NormalizedRecord)) :=
  match df with
  | NoColumns => mret (Raise KeyError)
  | Frame rows =>
      rows' ← traced_map (with_processed env) rows;
      mret (Ok (Frame rows'))
  end.

Definition transform_data := apply_text_preprocessing.

End DataPreprocessor.

(** ** Series operations used by the analyzer *)

(** [Series.unique()]: distinct values in first-seen order, null included. *)
Definition unique `{Countable A} (col : list A) : list A :=
  first_seen id ∅ col.

(** [Series.value_counts().to_dict()]: null cells are not counted. *)
Definition value_counts (col : list (option string)) : gmap string nat :=
  foldr (fun c counts =>
           match c with
           | Some v => <[v := S (default 0 (counts !! v))]> counts
           | None => counts
           end) ∅ col.

Definition occurrences (v : string) (vals : list string) : nat :=
  length (filter (fun x => x = v) vals).

(** [Series.mode()]: the non-null values of highest count, sorted. *)
Definition series_mode (col : list (option string)) : list string :=
  let vals := omap id col in
  let top := max_list ((fun v => occurrences v vals) <$> vals) in
  merge_sort String.le
    (filter (fun v => occurrences v vals = top) (unique vals)).

(** [.iloc[0]]. *)
Definition iloc0 {A} (l : list A) : result A :=
  match l with
  | [] => Raise IndexError
  | x :: _ => Ok x
  end.

(** [" ".join(col)]: every item has to be a [str]. *)
Definition join_cells (col : list (option string)) : result string :=
  items ← mapM (fun c => match c with
                         | Some s => Ok s
                         | None => Raise TypeError
                         end) col;
  mret (String.concat " " items).

(** ** TranscriptAnalyzer *)

Module TranscriptAnalyzer.
Import DataPreprocessor.

(** The summarisation pipeline object: text, max_length, min_length,
    do_sample; the result lists the [summary_text] of each item. *)
Definition Summarizer : Type :=
  string → Z → Z → bool → result (list string).

Record TranscriptAnalysis : Type := {
  analysis_transcript_id : string;
  possible_article_link : option string;
  message_counts : gmap string nat;
  overall_sentiments : gmap string string;
  conversation_summary : string;
  accuracy_report : string
}.

(** The two dicts [analyze_transcript] can return. *)
Inductive analysis : Type :=
  | ErrorDict (error : string)
  | Insights (a : TranscriptAnalysis).

Definition _load_data (env : TextEnv) (fs : DataLoader.filesystem)
    (data_path : string) : traced (result (DataFrame NormalizedRecord)) :=
  if DataLoader.path_exists fs data_path then
    match DataLoader.to_dataframe fs data_path ≫= DataCleaner.clean_data with
    | Ok cleaned_df => DataPreprocessor.transform_data env cleaned_df
    | Raise e => mret (Raise e)
    end
  else mret (Raise FileNotFoundError).

(** [transcript_df[transcript_df['agent'] == agent]]: a comparison with a
    null is false in every row. *)
Definition rows_of_agent (a : option string) (rows : list NormalizedRecord)
    : list NormalizedRecord :=
  match a with
  | Some _ => filter (fun r => agent (flat r) = a) rows
  | None => []
  end.

(** The right-hand side of line 61. *)
Definition agent_overall_sentiment (transcript_df : list NormalizedRecord)
    (a : option string) : result string :=
  let agent_sentiments := sentiment ∘ flat <$> rows_of_agent a transcript_df in
  match agent_sentiments with
  | [] => Ok "N/A"
  | _ => iloc0 (series_mode agent_sentiments)
  end.

(** Lines 58-61: the dict built by the loop over the agents. *)
Definition sentiments_by_agent (transcript_df : list NormalizedRecord)
    : result (gmap (option string) string) :=
  entries ← mapM (fun a => s ← agent_overall_sentiment transcript_df a;
                           mret (a, s))
                 (unique (agent ∘ flat <$> transcript_df));
  mret (list_to_map entries).

Definition accuracy_text : string :=
  "Accuracy for article link, message counts, and overall sentiments " +:+
  "is 100% as they are derived directly from the provided dataset, " +:+
  "which is treated as the ground truth.".

Definition analyze_transcript (summarizer : Summarizer)
    (df : DataFrame NormalizedRecord) (tid : string) : result analysis :=
  match df with
  | NoColumns => Raise KeyError
  | Frame rows =>
      let transcript_df := filter (fun r => transcript_id (flat r) = tid) rows in
      match transcript_df with
      | [] => Ok (ErrorDict ("Transcript ID '" +:+ tid +:+ "' not found."))
      | first :: _ =>
          let url := article_url (flat first) in
          let msg_counts := value_counts (agent ∘ flat <$> transcript_df) in
          overall ← sentiments_by_agent transcript_df;
          full_transcript_text ← join_cells (message ∘ flat <$> transcript_df);
          summary_list ← summarizer full_transcript_text 150%Z 30%Z false;
          let summary := match summary_list with
                         | summary_text :: _ => summary_text
                         | [] => "Could not generate summary."
                         end in
          mret (Insights {|
            analysis_transcript_id := tid;
            possible_article_link := url;
            message_counts :=
              {[ "agent_1" := default 0 (msg_counts !! "agent_1");
                 "agent_2" := default 0 (msg_counts !! "agent_2") ]};
            overall_sentiments :=
              {[ "agent_1" := default "N/A" (overall !! Some "agent_1");
                 "agent_2" := default "N/A" (overall !! Some "agent_2") ]};
            conversation_summary := summary;
            accuracy_report := accuracy_text |})
      end
  end.

End TranscriptAnalyzer.

(** ** DataPreprocessor.encode_categorical

    [LabelEncoder().fit_transform(self.df[column])] of scikit-learn (0.24 and
    later) on a column of strings and nulls: the classes are the distinct
    strings in sorted order, followed by the null when the column has one;
    a cell is encoded as the position of its class. *)

(** The columns that the data model types as text. *)
Inductive text_column : Type :=
  | Col_transcript_id
  | Col_article_url
  | Col_message
  | Col_agent
  | Col_sentiment
  | Col_turn_rating.

(** [self.df[column]], row by row. *)
Definition column_cell (column : text_column) (r : FlatRecord) : option string :=
  match column with
  | Col_transcript_id => Some (transcript_id r)
  | Col_article_url => article_url r
  | Col_message => message r
  | Col_agent => agent r
  | Col_sentiment => sentiment r
  | Col_turn_rating => turn_rating r
  end.

(** [encoder.classes_]. *)
Definition classes (col : list (option string)) : list (option string) :=
  (Some <$> merge_sort String.le (unique (omap id col)))
  ++ (if decide (None ∈ col) then [None] else []).

(** The position of a value in the table of classes. *)
Fixpoint index_of `{EqDecision A} (v : A) (l : list A) : nat :=
  match l with
  | [] => 0
  | c :: l' => if decide (c = v) then 0 else S (index_of v l')
  end.

Definition fit_transform (col : list (option string)) : list nat :=
  (fun v => index_of v (classes col)) <$> col.

Definition encode_categorical (df : DataFrame FlatRecord) (column : text_column)
    : result (list nat) :=
  match df with
  | NoColumns => Raise KeyError
  | Frame rows => Ok (fit_transform (column_cell column <$> rows))
  end.

(** ** Stores that follow the data model *)

Definition typed_value (o : pyobj) : bool :=
  match o with
  | PyNone | PyStr _ => true
  | _ => false
  end.

Definition typed_fields (fields : list string) (d : list (string * pyobj))
    : bool :=
  forallb (fun k => typed_value (default PyNone (dict_get d k))) fields.

Definition typed_turn (t : pyobj) : bool :=
  match t with
  | PyDict d => typed_fields ["message"; "agent"; "sentiment"; "turn_rating"] d
  | _ => true
  end.

Definition typed_record (data : pyobj) : bool :=
  match data with
  | PyDict d =>
      typed_fields ["article_url"] d &&
      match dict_get d "content" with
      | Some (PyList turns) => forallb typed_turn turns
      | _ => true
      end
  | _ => true
  end.

(** Every text field of the store that is present is a string or null. *)
Definition typed_store (v : pyobj) : bool :=
  match v with
  | PyDict entries => forallb (fun entry => typed_record entry.2) entries
  | _ => true
  end.

(** ** eda.py *)

Module Eda.

(** [load_and_preprocess_data(filepath)]. *)
Definition load_and_preprocess_data (env : TextEnv)
    (fs : DataLoader.filesystem) (filepath : string)
    : traced (result (DataFrame DataPreprocessor.NormalizedRecord)) :=
  match DataLoader.to_dataframe fs filepath ≫= DataCleaner.clean_data with
  | Ok cleaned_df => DataPreprocessor.transform_data env cleaned_df
  | Raise e => mret (Raise e)
  end.

End Eda.

(** ** main.py: the service

    FastAPI resolves the [api_key_auth] dependency before it runs the body of
    an endpoint, answers 422 when the required header is missing, and checks
    what an endpoint returns against its [response_model]. *)

Module Api.
Import DataPreprocessor TranscriptAnalyzer.

Inductive response (A : Type) : Type :=
  | Http200 (body : A)
  | HttpError (status : nat) (detail : string)   (* raise HTTPException(...) *)
  | RequestInvalid                               (* 422, a required part is missing *)
  | ResponseInvalid                              (* the response_model rejects the result *)
  | Unhandled (e : exn).                         (* an exception leaves the body *)
Arguments Http200 {A} body.
Arguments HttpError {A} status detail.
Arguments RequestInvalid {A}.
Arguments ResponseInvalid {A}.
Arguments Unhandled {A} e.

(** The [TranscriptAnalyzer] object: its table and its summarizer. *)
Record Analyzer : Type := {
  analyzer_df : DataFrame NormalizedRecord;
  analyzer_summarizer : Summarizer
}.



(** The dependency [api_key_auth] on the required header [X-API-Key]: the
    response that ends the request, if the key does not pass. *)
Definition api_key_auth {A} (API_KEY : string) (x_api_key : option string)
    : option (response A) :=
  match x_api_key with
  | None => Some RequestInvalid
  | Some key =>
      if decide (key = API_KEY) then None
      else Some (HttpError 401 "Invalid or missing API Key.")
  end.

(** [GET /analyze-transcript/{transcript_id}]; [AnalysisResult] wants a
    string for [possible_article_link]. *)
Definition analyze_transcript_endpoint (API_KEY : string)
    (analyzer : option Analyzer) (tid : string) (x_api_key : option string)
    : response TranscriptAnalysis :=
  match api_key_auth API_KEY x_api_key with
  | Some refusal => refusal
  | None =>
      match analyzer with
      | None => HttpError 500 "Analyzer not initialized."
      | Some an =>
          match analyze_transcript (analyzer_summarizer an) (analyzer_df an)
                  tid with
          | Raise e => Unhandled e
          | Ok (ErrorDict error) => HttpError 404 error
          | Ok (Insights a) =>
              match possible_article_link a with
              | Some _ => Http200 a
              | None => ResponseInvalid
              end
          end
      end
  end.

Record PreprocessedText : Type := {
  original_text : string;
  processed_text : string
}.

(** [POST /transform], for a request body that is a [TextInput]. *)
Definition transform_text (env : TextEnv) (API_KEY : string) (text : string)
    (x_api_key : option string) : traced (response PreprocessedText) :=
  match api_key_auth API_KEY x_api_key with
  | Some refusal => mret refusal
  | None =>
      processed ← preprocess_text env (PyStr text);
      mret (Http200 {| original_text := text; processed_text := processed |})
  end.

Record DatasetSummary : Type := {
  total_transcripts : nat;
  total_messages : nat;
  messages_per_agent : gmap string nat;
  sentiment_distribution : gmap string nat;
  turn_rating_distribution : gmap string nat
}.

(** [GET /summary]. *)
Definition get_dataset_summary (API_KEY : string) (analyzer : option Analyzer)
    (x_api_key : option string) : response DatasetSummary :=
  match api_key_auth API_KEY x_api_key with
  | Some refusal => refusal
  | None =>
      match analyzer with
      | None => HttpError 500 "Analyzer not initialized."
      | Some an =>
          match analyzer_df an with
          | NoColumns => Unhandled KeyError
          | Frame rows =>
              Http200 {|
                total_transcripts :=
                  length (unique (transcript_id ∘ flat <$> rows));
                total_messages := length rows;
                messages_per_agent := value_counts (agent ∘ flat <$> rows);
                sentiment_distribution :=
                  value_counts (sentiment ∘ flat <$> rows);
                turn_rating_distribution :=
                  value_counts (turn_rating ∘ flat <$> rows) |}
          end
      end
  end.

End Api.

(** The sum of the counts of a dict of counts. *)
Definition dict_total (counts : gmap string nat) : nat :=
  map_fold (fun _ n total => n + total) 0 counts.

(** ** Vocabulary of the statements *)

(** The events of one call of [preprocess_text]. *)
Definition call_events : list event :=
  [NewLemmatizer; StopwordsWords; BuildStopSet].

Definition count_event (e : event) (log : list event) : nat :=
  length (filter (fun x => x = e) log).

(** The most frequent value, the smallest one among equally frequent ones. *)
Definition is_mode (vals : list string) (m : string) : Prop :=
  m ∈ vals ∧
  ∀ v, v ∈ vals →
       (occurrences v vals ≤ occurrences m vals)%nat ∧
       (occurrences v vals = occurrences m vals → String.le m v).

(** The non-null sentiments of the rows of an agent. *)
Definition sentiments_of (a : option string)
    (transcript_df : list DataPreprocessor.NormalizedRecord) : list string :=
  omap id (sentiment ∘ DataPreprocessor.flat
           <$> TranscriptAnalyzer.rows_of_agent a transcript_df).

(** Every row has a message (as after [clean_data]), and the agent of every
    row has a row with a sentiment. *)
Definition analyzable
    (transcript_df : list DataPreprocessor.NormalizedRecord) : Prop :=
  Forall (fun r => message (DataPreprocessor.flat r) ≠ None
                   ∧ (agent (DataPreprocessor.flat r) ≠ None →
                      sentiments_of (agent (DataPreprocessor.flat r))
                        transcript_df ≠ []))
         transcript_df.

#[global] Instance analyzable_dec transcript_df : Decision (analyzable transcript_df).
Proof. unfold analyzable. apply _. Defined.

(** The text handed to the summarizer when every row has a message. *)
Definition full_text
    (transcript_df : list DataPreprocessor.NormalizedRecord) : string :=
  String.concat " " (omap (message ∘ DataPreprocessor.flat) transcript_df).

(** The rows of a transcript and agent whose message is null. *)
Definition null_message_of (tid : string) (ag : option string)
    (r : FlatRecord) : Prop :=
  transcript_id r = tid ∧ agent r = ag ∧ message r = None.

#[global] Instance null_message_of_dec tid ag r :
  Decision (null_message_of tid ag r).
Proof. unfold null_message_of. apply _. Defined.

(** ** The token rule as the specification words it

    "Remove tokens that are members of a fixed English stopword set OR members
    of the ASCII punctuation set": the punctuation set holds the 32
    punctuation characters, so only a one-character token can be a member. *)
Definition removed_by_spec (stop_words : gset string) (token : string) : Prop :=
  token ∈ stop_words ∨
  ∃ c, token = String c "" ∧ c ∈ String.list_ascii_of_string punctuation.

(** ** A small environment to run the definitions

    A stand-in for the library functions, for evaluating the pipeline on
    concrete inputs: ASCII lower-casing, a tokenizer that splits at white
    space (the inputs used below are written with a blank between any two
    tokens), an excerpt of the English stopword list, and a lemmatizer that
    knows no inflected form. *)

Definition ascii_lower (c : ascii) : ascii :=
  let n := nat_of_ascii c in
  if (65 <=? n)%nat && (n <=? 90)%nat then ascii_of_nat (n + 32) else c.

Fixpoint lower_ascii_string (s : string) : string :=
  match s with
  | "" => ""
  | String c s' => String (ascii_lower c) (lower_ascii_string s')
  end.

Definition stopwords_excerpt : list string :=
  ["i"; "me"; "my"; "we"; "you"; "he"; "she"; "it"; "they"; "this"; "that";
   "am"; "is"; "are"; "was"; "be"; "a"; "an"; "the"; "and"; "but"; "or";
   "of"; "at"; "by"; "for"; "with"; "to"; "in"; "on"; "not"; "so"].

Definition toy_env : TextEnv := {|
  str_lower := lower_ascii_string;
  word_tokenize := String.words;
  stopwords_english := stopwords_excerpt;
  lemmatize := id
|}.

(** A table cell, a turn and a store, to write inputs down. *)
Definition row (tid : string) (ag msg sent : option string) : FlatRecord := {|
  transcript_id := tid;
  article_url := Some "http://a";
  message := msg;
  agent := ag;
  sentiment := sent;
  knowledge_source := PyDict [];
  turn_rating := Some "Good"
|}.

(** The row of the normalized table that [transform_data] makes of a row. *)
Definition normalized (r : FlatRecord) : DataPreprocessor.NormalizedRecord :=
  fst (DataPreprocessor.with_processed toy_env r []).

Definition turn (ag msg : string) (sent : pyobj) : pyobj :=
  PyDict [("message", PyStr msg); ("agent", PyStr ag); ("sentiment", sent);
          ("knowledge_source", PyDict []); ("turn_rating", PyStr "Good")].

Definition single_file (v : pyobj) : DataLoader.filesystem :=
  fun path => if decide (path = "data.json") then DataLoader.Json v
              else DataLoader.NoFile.

(** A summarizer that answers, one that returns nothing, one that fails. *)
Definition echo_summarizer : TranscriptAnalyzer.Summarizer :=
  fun text _ _ _ => Ok ["Summary: " +:+ text].
Definition silent_summarizer : TranscriptAnalyzer.Summarizer :=
  fun _ _ _ _ => Ok [].
Definition failing_summarizer : TranscriptAnalyzer.Summarizer :=
  fun _ _ _ _ => Raise (RuntimeError "backend unavailable").

(** A store with a record that has no [content] key. *)
Definition store_missing_content : pyobj :=
  PyDict [("t1", PyDict [("article_url", PyStr "http://a")]);
          ("t2", PyDict [("article_url", PyStr "http://a");
                         ("content",
                          PyList [turn "agent_1" "Hello World !"
                                    (PyStr "Positive")])])].

(** A store whose only turn of agent_1 has a null sentiment. *)
Definition store_null_sentiment : pyobj :=
  PyDict [("t1", PyDict [("article_url", PyStr "http://a");
                         ("content",
                          PyList [turn "agent_1" "hi" PyNone;
                                  turn "agent_2" "hello" (PyStr "Positive")])])].

(** Rows of two transcripts; "t1" has a row of an agent called agent_3. *)
Definition rows_three_agents : list DataPreprocessor.NormalizedRecord :=
  [normalized (row "t1" (Some "agent_1") (Some "Hello") (Some "Positive"));
   normalized (row "t1" (Some "agent_3") (Some "Good day") (Some "Neutral"));
   normalized (row "t2" (Some "agent_2") (Some "Bye") None)].

(** The sentiments of the scenario, and a tie. *)
Definition rows_scenario : list DataPreprocessor.NormalizedRecord :=
  [normalized (row "t1" (Some "agent_1") (Some "one") (Some "Positive"));
   normalized (row "t1" (Some "agent_2") (Some "two") (Some "Negative"));
   normalized (row "t1" (Some "agent_1") (Some "three") (Some "Positive"));
   normalized (row "t1" (Some "agent_2") (Some "four") (Some "Curious"));
   normalized (row "t1" (Some "agent_1") (Some "five") (Some "Negative"))].

(** Rows with a duplicate, an incomplete row and a row without sentiment. *)
Definition rows_to_clean : list FlatRecord :=
  [row "t1" (Some "agent_1") (Some "hi") None;
   row "t1" (Some "agent_2") None (Some "Positive");
   row "t1" (Some "agent_1") (Some "hi") (Some "Negative");
   row "t1" None (Some "who") (Some "Neutral")].

(** Rows of two transcripts: a duplicate, rows without message or agent,
    the same turn in another transcript, rows without sentiment. *)
Definition rows_two_transcripts : list FlatRecord :=
  [row "t1" (Some "agent_1") (Some "hi") None;
   row "t1" (Some "agent_2") None (Some "Positive");
   row "t1" (Some "agent_1") (Some "hi") (Some "Negative");
   row "t2" (Some "agent_1") (Some "hi") None;
   row "t1" None (Some "who") (Some "Neutral");
   row "t1" (Some "agent_2") (Some "yo") None].

(** Rows with null messages: the second and the fourth have the same
    transcript and agent. *)
Definition rows_null_messages : list FlatRecord :=
  [row "t1" (Some "agent_1") (Some "hi") None;
   row "t1" (Some "agent_2") None (Some "Positive");
   row "t2" (Some "agent_2") None None;
   row "t1" (Some "agent_2") None (Some "Negative")].

(** Rows whose sentiments are two strings and a null. *)
Definition rows_to_encode : list FlatRecord :=
  [row "t1" (Some "agent_1") (Some "a") (Some "Positive");
   row "t1" (Some "agent_2") (Some "b") None;
   row "t1" (Some "agent_1") (Some "c") (Some "Curious");
   row "t1" (Some "agent_2") (Some "d") (Some "Positive")].

(** A store with two transcripts; a turn is repeated, one has no message. *)
Definition store_two_transcripts : pyobj :=
  PyDict [("t1", PyDict [("article_url", PyStr "http://a");
                         ("content",
                          PyList [turn "agent_1" "Hello there" (PyStr "Positive");
                                  turn "agent_2" "Good day" PyNone;
                                  turn "agent_1" "Hello there" (PyStr "Negative");
                                  PyDict [("agent", PyStr "agent_2")]])]);
          ("t2", PyDict [("content", PyList [turn "agent_2" "Bye" (PyStr "Sad")])])].

(** * Properties *)

(** A decidable proposition about concrete data, settled by running its
    decision procedure. *)
Ltac decide_by_computation :=
  match goal with
  | |- ?P => apply (bool_decide_unpack P); vm_compute; exact I
  end.

(** ** First-seen selection *)

Section first_seen.
Context `{Countable K} {A : Type} (key : A → K).
Implicit Types (seen : gset K) (l : list A) (k : K).

Lemma first_seen_elem_of seen l x :
  x ∈ first_seen key seen l → x ∈ l ∧ key x ∉ seen.
Proof.
  revert seen. induction l as [|y l IH]; intros seen; simpl.
  - by intros ?%elem_of_nil.
  - case_decide as Hy.
    + intros Hx. apply IH in Hx as [? ?]. split; [by right | done].
    + intros [->|Hx]%elem_of_cons.
      * split; [by left | done].
      * apply IH in Hx as [? Hx]. split; [by right |].
        intros ?. apply Hx. by apply elem_of_union_r.
Qed.

Lemma first_seen_sublist seen l : first_seen key seen l `sublist_of` l.
Proof.
  revert seen. induction l as [|y l IH]; intros seen; simpl.
  - constructor.
  - case_decide; [apply sublist_cons | apply sublist_skip]; apply IH.
Qed.

Lemma first_seen_NoDup seen l : NoDup (key <$> first_seen key seen l).
Proof.
  revert seen. induction l as [|y l IH]; intros seen; simpl.
  - constructor.
  - case_decide; [apply IH|].
    rewrite fmap_cons. constructor; [|apply IH].
    intros (z & Hkey & [_ Hz]%first_seen_elem_of)%list_elem_of_fmap.
    set_solver.
Qed.

(** Of the elements with a given key, the first one is kept and no other. *)
Lemma first_seen_filter seen l k :
  filter (fun x => key x = k) (first_seen key seen l) =
  if decide (k ∈ seen) then [] else take 1 (filter (fun x => key x = k) l).
Proof.
  revert seen. induction l as [|y l IH]; intros seen; simpl.
  - by case_decide.
  - rewrite (filter_cons _ y l).
    destruct (decide (key y ∈ seen)) as [Hy|Hy].
    + rewrite IH. by repeat case_decide; simplify_eq.
    + rewrite filter_cons, IH.
      destruct (decide (key y = k)) as [<-|Hne].
      * rewrite decide_True by (apply elem_of_union_l; by apply elem_of_singleton).
        by rewrite decide_False.
      * destruct (decide (k ∈ seen)) as [Hk|Hk].
        -- rewrite decide_True; [done | by apply elem_of_union_r].
        -- rewrite decide_False; [done |].
           intros [Hk'%elem_of_singleton|?]%elem_of_union; congruence.
Qed.

Lemma first_seen_covers seen l x :
  x ∈ l → key x ∉ seen → ∃ y, y ∈ first_seen key seen l ∧ key y = key x.
Proof.
  intros Hx Hseen.
  assert (filter (fun y => key y = key x) l ≠ []) as Hne.
  { intros Hnil. assert (x ∈ filter (fun y => key y = key x) l) as Hin
      by (by apply list_elem_of_filter).
    rewrite Hnil in Hin. by apply elem_of_nil in Hin. }
  pose proof (first_seen_filter seen l (key x)) as Hf.
  rewrite decide_False in Hf by done.
  destruct (filter (fun y => key y = key x) l) as [|y ys] eqn:E; [done|].
  exists y. simpl in Hf. rewrite take_0 in Hf.
  assert (y ∈ filter (fun y => key y = key x) (first_seen key seen l)) as Hy
    by (rewrite Hf; by left).
  by apply list_elem_of_filter in Hy as [? ?].
Qed.
End first_seen.

Section first_seen_append.
Context `{Countable K} {A : Type} (key : A → K).
Implicit Types (seen : gset K) (l : list A).

Lemma first_seen_app seen l1 l2 :
  first_seen key seen (l1 ++ l2) =
  first_seen key seen l1 ++
  first_seen key (list_to_set (key <$> l1) ∪ seen) l2.
Proof.
  revert seen. induction l1 as [|x l1 IH]; intros seen; simpl.
  - by rewrite (left_id_L ∅ (∪)).
  - case_decide as Hx; rewrite IH; simpl.
    + do 2 f_equal. apply set_eq. intros k.
      rewrite !elem_of_union, elem_of_singleton. intuition congruence.
    + do 3 f_equal. apply set_eq. intros k.
      rewrite !elem_of_union, elem_of_singleton. tauto.
Qed.

Lemma first_seen_skip seen x l :
  key x ∈ seen → first_seen key seen (x :: l) = first_seen key seen l.
Proof. intros ?. simpl. by rewrite decide_True. Qed.

(** A later element with the key of an earlier one leaves no trace. *)
Lemma first_seen_later_duplicate seen pre x mid y post :
  key x = key y →
  first_seen key seen (pre ++ x :: mid ++ y :: post) =
  first_seen key seen (pre ++ x :: mid ++ post).
Proof.
  intros Hkey.
  rewrite !(app_comm_cons mid), !(app_assoc pre (x :: mid)).
  rewrite !(first_seen_app seen (pre ++ x :: mid)). f_equal.
  apply first_seen_skip, elem_of_union_l, elem_of_list_to_set.
  rewrite <-Hkey, fmap_app, fmap_cons.
  apply elem_of_app. right. by left.
Qed.
End first_seen_append.

Lemma NoDup_fmap_filter {A B} (f : A → B) (P : A → Prop)
    `{!∀ x, Decision (P x)} (l : list A) :
  NoDup (f <$> l) → NoDup (f <$> filter P l).
Proof.
  induction l as [|x l IH]; [done|].
  rewrite fmap_cons, filter_cons. intros [Hx Hl]%NoDup_cons.
  case_decide; [|by apply IH].
  rewrite fmap_cons. apply NoDup_cons. split; [|by apply IH].
  intros (y & Hy & [_ ?]%list_elem_of_filter)%list_elem_of_fmap.
  apply Hx. apply list_elem_of_fmap. eauto.
Qed.

(** ** DataCleaner *)

Lemma dup_key_eq (r : FlatRecord) tid ag msg :
  DataCleaner.dup_key r = (tid, ag, msg) ↔
  transcript_id r = tid ∧ agent r = ag ∧ message r = msg.
Proof.
  unfold DataCleaner.dup_key. split.
  - by intros [= <- <- <-].
  - by intros (<- & <- & <-).
Qed.

Lemma drop_duplicates_class (rows : list FlatRecord) tid ag msg :
  filter (fun r => transcript_id r = tid ∧ agent r = ag ∧ message r = msg)
         (DataCleaner.drop_duplicates rows) =
  take 1 (filter (fun r => transcript_id r = tid ∧ agent r = ag ∧ message r = msg)
                 rows).
Proof.
  pose proof (first_seen_filter DataCleaner.dup_key ∅ rows (tid, ag, msg)) as Hk.
  rewrite decide_False in Hk by apply not_elem_of_empty.
  erewrite list_filter_iff, (list_filter_iff _ _ rows); [apply Hk | |];
    intros r; symmetry; apply dup_key_eq.
Qed.


(** Two turns that differ in knowledge_source and sentiment alone. *)
Example remove_duplicates_ignores_knowledge_source :
  DataCleaner.remove_duplicates
    (Frame [row "t1" (Some "agent_1") (Some "hi") (Some "Positive");
            {| transcript_id := "t1"; article_url := Some "http://a";
               message := Some "hi"; agent := Some "agent_1";
               sentiment := Some "Negative";
               knowledge_source := PyDict [("FS1", PyStr "fact")];
               turn_rating := Some "Poor" |}]) =
  Ok (Frame [row "t1" (Some "agent_1") (Some "hi") (Some "Positive")]).
Proof. reflexivity. Qed.

(** C10. Null messages are equal to each other in the duplicate key. Of the
    records of a transcript and agent whose message is null, the first one is
    what [remove_duplicates] keeps; a later one is dropped: the frame that
    comes out is the one that comes out without that record. This is the
    duplicate removal alone, before [handle_missing_values] is run. *)
Theorem remove_duplicates_null_messages (rows : list FlatRecord)
    (tid : string) (ag : option string) :
  filter (null_message_of tid ag) (DataCleaner.drop_duplicates rows) =
    take 1 (filter (null_message_of tid ag) rows)
  ∧ ∀ pre r1 mid r2 post,
      rows = pre ++ r1 :: mid ++ r2 :: post →
      null_message_of tid ag r1 → null_message_of tid ag r2 →
      DataCleaner.remove_duplicates (Frame rows) =
      DataCleaner.remove_duplicates (Frame (pre ++ r1 :: mid ++ post)).
Proof.
  split.
  - etrans; [|etrans; [apply (drop_duplicates_class rows tid ag None)|]].
    + by apply list_filter_iff.
    + f_equal. by apply list_filter_iff.
  - intros pre r1 mid r2 post -> (Ht1 & Ha1 & Hm1) (Ht2 & Ha2 & Hm2).
    simpl. do 2 f_equal. apply first_seen_later_duplicate.
    unfold DataCleaner.dup_key. by rewrite Ht1, Ha1, Hm1, Ht2, Ha2, Hm2.
Qed.

Lemma remove_duplicates_null_messages_witness :
  filter (null_message_of "t1" (Some "agent_2"))
         (DataCleaner.drop_duplicates rows_null_messages) =
    [row "t1" (Some "agent_2") None (Some "Positive")]
  ∧ DataCleaner.remove_duplicates (Frame rows_null_messages) =
    Ok (Frame [row "t1" (Some "agent_1") (Some "hi") None;
               row "t1" (Some "agent_2") None (Some "Positive");
               row "t2" (Some "agent_2") None None]).
Proof.
  split.
  - by rewrite (proj1 (remove_duplicates_null_messages rows_null_messages
                         "t1" (Some "agent_2"))).
  - by rewrite (proj2 (remove_duplicates_null_messages rows_null_messages
                         "t1" (Some "agent_2"))
                  [row "t1" (Some "agent_1") (Some "hi") None]
                  (row "t1" (Some "agent_2") None (Some "Positive"))
                  [row "t2" (Some "agent_2") None None]
                  (row "t1" (Some "agent_2") None (Some "Negative")) []
                  eq_refl (conj eq_refl (conj eq_refl eq_refl))
                  (conj eq_refl (conj eq_refl eq_refl))).
Defined.

Lemma clean_data_no_columns : DataCleaner.clean_data NoColumns = Raise KeyError.
Proof. reflexivity. Qed.

Lemma filter_none {A} (P : A → Prop) `{!∀ x, Decision (P x)} (l : list A) :
  (∀ x, x ∈ l → ¬ P x) → filter P l = [].
Proof.
  induction l as [|x l IH]; intros Hno; [done|].
  rewrite filter_cons, decide_False by (apply Hno; by left).
  apply IH. intros y Hy. apply Hno. by right.
Qed.

(** Of the rows that agree on the three fields, cleaning keeps the first when
    the agent and the message are not null, and none otherwise. *)
Lemma clean_data_class (rows : list FlatRecord) tid ag msg :
  filter (fun r => transcript_id r = tid ∧ agent r = ag ∧ message r = msg)
         (filter DataCleaner.complete (DataCleaner.drop_duplicates rows)) =
  if decide (ag ≠ None ∧ msg ≠ None)
  then take 1 (filter (fun r => transcript_id r = tid ∧ agent r = ag
                                ∧ message r = msg) rows)
  else [].
Proof.
  rewrite list_filter_filter. case_decide as Hkey.
  - rewrite <-drop_duplicates_class. apply list_filter_iff. intros r.
    unfold DataCleaner.complete. split; [tauto|].
    intros (Ht & Ha & Hm). rewrite Ha, Hm. tauto.
  - apply filter_none. intros r _ [(_ & Ha & Hm) [Hm' Ha']].
    apply Hkey. by rewrite <-Ha, <-Hm.
Qed.

(** The first row of every class of rows with a message and an agent is in
    the cleaned table. *)
Lemma clean_data_class_head (rows : list FlatRecord) (r : FlatRecord) :
  r ∈ rows → DataCleaner.complete r →
  ∃ r', r' ∈ filter DataCleaner.complete (DataCleaner.drop_duplicates rows)
    ∧ DataCleaner.dup_key r' = DataCleaner.dup_key r
    ∧ head (filter (fun x => DataCleaner.dup_key x = DataCleaner.dup_key r)
              rows) = Some r'.
Proof.
  intros Hr Hc.
  pose proof (first_seen_filter DataCleaner.dup_key ∅ rows
                (DataCleaner.dup_key r)) as Hf.
  rewrite decide_False in Hf by apply not_elem_of_empty.
  destruct (filter (fun x => DataCleaner.dup_key x = DataCleaner.dup_key r)
              rows) as [|r' l] eqn:Hrows.
  { assert (r ∈ filter (fun x => DataCleaner.dup_key x = DataCleaner.dup_key r)
                  rows) as Hin by (by apply list_elem_of_filter).
    rewrite Hrows in Hin. by apply elem_of_nil in Hin. }
  simpl in Hf. rewrite take_0 in Hf.
  assert (r' ∈ filter (fun x => DataCleaner.dup_key x = DataCleaner.dup_key r)
                 (first_seen DataCleaner.dup_key ∅ rows)) as Hin'
    by (rewrite Hf; by left).
  apply list_elem_of_filter in Hin' as [Hkey Hin'].
  exists r'. split; [|done].
  apply list_elem_of_filter. split; [|done].
  destruct Hc as [Hm Ha]. unfold DataCleaner.dup_key in Hkey.
  injection Hkey as _ Ha' Hm'. unfold DataCleaner.complete. by rewrite Hm', Ha'.
Qed.

(** C7, as the code has it. On a table that has its columns, [clean_data]
    removes duplicates first and incomplete rows second; in the table it
    returns no two rows have the same (transcript_id, agent, message) and no
    row has a null message or a null agent. In terms of the rows that went
    in: the rows that come out are rows of the input in their order; of the
    rows that agree on the three fields the first one comes out when the
    agent and the message are not null, and none otherwise, so a row with a
    message and an agent is lost only to an earlier row with its three
    fields, whatever its sentiment, turn_rating and article_url are. *)
Theorem clean_data_invariants (rows : list FlatRecord) :
  ∃ out, DataCleaner.clean_data (Frame rows) = Ok (Frame out)
    ∧ out = filter DataCleaner.complete (DataCleaner.drop_duplicates rows)
    ∧ NoDup (DataCleaner.dup_key <$> out)
    ∧ Forall (fun r => message r ≠ None ∧ agent r ≠ None) out
    ∧ (∀ r, r ∈ DataCleaner.drop_duplicates rows →
            message r ≠ None → agent r ≠ None → r ∈ out)
    ∧ out `sublist_of` rows
    ∧ (∀ tid ag msg,
         filter (fun r => transcript_id r = tid ∧ agent r = ag
                          ∧ message r = msg) out =
         if decide (ag ≠ None ∧ msg ≠ None)
         then take 1 (filter (fun r => transcript_id r = tid ∧ agent r = ag
                                       ∧ message r = msg) rows)
         else [])
    ∧ (∀ r, r ∈ rows → message r ≠ None → agent r ≠ None →
         ∃ r', r' ∈ out
           ∧ DataCleaner.dup_key r' = DataCleaner.dup_key r
           ∧ head (filter (fun x => DataCleaner.dup_key x =
                                    DataCleaner.dup_key r) rows) = Some r').
Proof.
  exists (filter DataCleaner.complete (DataCleaner.drop_duplicates rows)).
  split; [done|]. split; [done|].
  split; [|split; [|split; [|split; [|split]]]].
  - apply NoDup_fmap_filter, first_seen_NoDup.
  - apply Forall_forall. by intros r [? _]%list_elem_of_filter.
  - intros r Hr Hm Ha. by apply list_elem_of_filter.
  - etrans; [apply sublist_filter | apply first_seen_sublist].
  - apply clean_data_class.
  - intros r Hr Hm Ha. by apply clean_data_class_head.
Qed.

Lemma clean_data_invariants_witness :
  ∃ out, DataCleaner.clean_data (Frame rows_two_transcripts) = Ok (Frame out)
    ∧ out = [row "t1" (Some "agent_1") (Some "hi") None;
             row "t2" (Some "agent_1") (Some "hi") None;
             row "t1" (Some "agent_2") (Some "yo") None]
    ∧ row "t1" (Some "agent_2") (Some "yo") None ∈ out
    ∧ ∃ r', r' ∈ out
        ∧ head (filter (fun x => DataCleaner.dup_key x =
                   DataCleaner.dup_key
                     (row "t1" (Some "agent_1") (Some "hi") (Some "Negative")))
                  rows_two_transcripts) = Some r'.
Proof.
  destruct (clean_data_invariants rows_two_transcripts)
    as (out & Hrun & Hout & _ & _ & Hkeep & _ & _ & Hhead).
  exists out. split; [exact Hrun|]. split; [exact Hout|]. split.
  - apply Hkeep; [|done..]. do 4 right. left.
  - destruct (Hhead (row "t1" (Some "agent_1") (Some "hi") (Some "Negative")))
      as (r' & Hin & _ & Hr'); [|done..|by exists r'].
    do 2 right. left.
Defined.

(** C7, as the specification states it, fails on the table the loader makes
    of a store without turns: [pd.DataFrame([])] has no columns, the
    duplicate removal returns it as it is, and [dropna] raises a [KeyError]
    for its subset, so [clean_data] returns no table. *)
Lemma clean_data_empty_table_counterexample :
  DataLoader.to_dataframe (single_file (PyDict [])) "data.json" = Ok NoColumns
  ∧ DataCleaner.remove_duplicates NoColumns = Ok NoColumns
  ∧ DataCleaner.clean_data NoColumns = Raise KeyError
  ∧ ¬ ∃ out, DataCleaner.clean_data (pd_DataFrame []) = Ok out.
Proof.
  repeat split; try reflexivity. by intros [out Hout].
Qed.

(** ** Strings *)

Lemma app_String c (s t : string) : String c s +:+ t = String c (s +:+ t).
Proof. reflexivity. Qed.

Lemma prefix_spec (t s : string) :
  String.prefix t s = true ↔ ∃ post, s = t +:+ post.
Proof.
  revert s. induction t as [|a t IH]; intros s.
  - destruct s; simpl; (split; [intros _; by eexists | done]).
  - destruct s as [|b s]; simpl.
    + split; [done | by intros [post ?]].
    + destruct (Ascii.ascii_dec a b) as [->|Hne].
      * split.
        -- intros [post Hs]%IH. exists post. by rewrite app_String, <-Hs.
        -- intros [post Hs]. apply IH. exists post.
           rewrite app_String in Hs. by simplify_eq.
      * split; [done|]. intros [post Hs]. rewrite app_String in Hs.
        by simplify_eq.
Qed.

Lemma str_in_nil (t : string) : str_in t "" = String.prefix t "".
Proof. destruct t; reflexivity. Qed.

Lemma str_in_String (t : string) c (s : string) :
  str_in t (String c s) = String.prefix t (String c s) || str_in t s.
Proof. destruct t; reflexivity. Qed.

(** [str_in] is Python's substring test. *)
Lemma str_in_spec (t s : string) :
  str_in t s = true ↔ ∃ pre post, s = pre +:+ t +:+ post.
Proof.
  induction s as [|c s IH].
  - rewrite str_in_nil. split.
    + intros [post Hs]%prefix_spec. by exists "", post.
    + intros (pre & post & Hs). apply prefix_spec. exists post.
      destruct pre; [done | by rewrite app_String in Hs].
  - rewrite str_in_String, orb_true_iff. split.
    + intros [[post Hs]%prefix_spec|(pre & post & Hs)%IH].
      * by exists "", post.
      * exists (String c pre), post. by rewrite app_String, <-Hs.
    + intros (pre & post & Hs). destruct pre as [|c' pre].
      * left. apply prefix_spec. by exists post.
      * right. apply IH. exists pre, post.
        rewrite app_String in Hs. by simplify_eq.
Qed.

Lemma list_ascii_of_string_app (s t : string) :
  String.list_ascii_of_string (s +:+ t) =
  String.list_ascii_of_string s ++ String.list_ascii_of_string t.
Proof.
  induction s as [|c s IH]; [done|].
  rewrite app_String. simpl. by rewrite IH.
Qed.

Lemma str_in_chars (t s : string) c :
  str_in t s = true →
  c ∈ String.list_ascii_of_string t → c ∈ String.list_ascii_of_string s.
Proof.
  intros (pre & post & ->)%str_in_spec Hc.
  rewrite !list_ascii_of_string_app, !elem_of_app. auto.
Qed.

Lemma punctuation_char_in c :
  c ∈ String.list_ascii_of_string punctuation →
  str_in (String c "") punctuation = true.
Proof.
  intros Hc. vm_compute in Hc.
  repeat (apply elem_of_cons in Hc as [->|Hc]; [by vm_compute|]).
  by apply elem_of_nil in Hc.
Qed.

(** ** DataPreprocessor *)

Lemma preprocess_text_run (env : TextEnv) (text : pyobj) (log : list event) :
  DataPreprocessor.preprocess_text env text log =
  (match text with
   | PyStr s =>
       String.concat " "
         (lemmatize env <$>
          List.filter
            (DataPreprocessor.keep_token (list_to_set (stopwords_english env)))
            (word_tokenize env (str_lower env s)))
   | _ => ""
   end,
   log ++ call_events).
Proof.
  unfold DataPreprocessor.preprocess_text, call_events, emit, mbind,
    traced_bind, mret, traced_ret.
  rewrite <-!(assoc_L (++)). by destruct text.
Qed.

Lemma with_processed_run (env : TextEnv) (r : FlatRecord) (log : list event) :
  DataPreprocessor.with_processed env r log =
  ({| DataPreprocessor.flat := r;
      DataPreprocessor.processed_message :=
        fst (DataPreprocessor.preprocess_text env
               (DataPreprocessor.cell_value (message r)) []) |},
   log ++ call_events).
Proof.
  unfold DataPreprocessor.with_processed, mbind, traced_bind.
  by rewrite !preprocess_text_run.
Qed.

Lemma traced_map_with_processed (env : TextEnv) (rows : list FlatRecord)
    (log : list event) :
  traced_map (DataPreprocessor.with_processed env) rows log =
  ((fun r => fst (DataPreprocessor.with_processed env r [])) <$> rows,
   log ++ mjoin ((fun _ => call_events) <$> rows)).
Proof.
  revert log. induction rows as [|r rows IH]; intros log; simpl.
  - unfold mret, traced_ret. by rewrite (right_id_L [] (++)).
  - unfold mbind, traced_bind. rewrite !with_processed_run, IH. simpl.
    unfold mret, traced_ret. by rewrite <-!(assoc_L (++)).
Qed.

Lemma count_event_calls {A} (e : event) (rows : list A) :
  count_event e call_events = 1 →
  count_event e (mjoin ((fun _ => call_events) <$> rows)) = length rows.
Proof.
  intros He. induction rows as [|r rows IH]; [done|].
  rewrite fmap_cons.
  change (count_event e (call_events ++ mjoin ((fun _ => call_events) <$> rows))
          = S (length rows)).
  unfold count_event in *. by rewrite filter_app, length_app, He, IH.
Qed.

(** C3, as the code has it. The output is made of the tokens of the
    lower-cased text that pass [keep_token]. A token is removed exactly when
    it is a stopword or occurs in the punctuation string as a contiguous run
    of characters. Hence every one-character punctuation token is removed,
    and a token with a character that is not punctuation is kept unless it is
    a stopword; a token of several punctuation characters is removed when the
    characters stand next to each other, in that order, in the punctuation
    string. *)
Theorem keep_token_substring_rule (env : TextEnv) :
  (∀ text log,
     fst (DataPreprocessor.preprocess_text env (PyStr text) log) =
     String.concat " "
       (lemmatize env <$>
        List.filter
          (DataPreprocessor.keep_token (list_to_set (stopwords_english env)))
          (word_tokenize env (str_lower env text))))
  ∧ (∀ token,
       DataPreprocessor.keep_token (list_to_set (stopwords_english env)) token
         = false ↔
       token ∈ stopwords_english env
       ∨ ∃ pre post, punctuation = pre +:+ token +:+ post)
  ∧ (∀ c, c ∈ String.list_ascii_of_string punctuation →
          DataPreprocessor.keep_token (list_to_set (stopwords_english env))
            (String c "") = false)
  ∧ (∀ token c,
       c ∈ String.list_ascii_of_string token →
       c ∉ String.list_ascii_of_string punctuation →
       token ∉ stopwords_english env →
       DataPreprocessor.keep_token (list_to_set (stopwords_english env)) token
         = true).
Proof.
  unfold DataPreprocessor.keep_token. split; [|split; [|split]].
  - intros text log. by rewrite preprocess_text_run.
  - intros token.
    rewrite andb_false_iff, bool_decide_eq_false, negb_false_iff.
    rewrite <-(elem_of_list_to_set (C:=gset string)). split.
    + intros [Hstop|Hin]; [left; by apply dec_stable | right; by apply str_in_spec].
    + intros [Hstop|Hin]; [left; by intros ? | right; by apply str_in_spec].
  - intros c Hc. by rewrite punctuation_char_in, andb_false_r.
  - intros token c Hc Hnot Hstop.
    rewrite bool_decide_eq_true_2 by (by rewrite elem_of_list_to_set). simpl.
    apply negb_true_iff, not_true_is_false. intros Hin.
    apply Hnot. by apply (str_in_chars token).
Qed.

Lemma keep_token_substring_rule_witness :
  DataPreprocessor.keep_token (list_to_set stopwords_excerpt) "!" = false
  ∧ DataPreprocessor.keep_token (list_to_set stopwords_excerpt) "e-mail" = true.
Proof.
  split.
  - apply (proj1 (proj2 (proj2 (keep_token_substring_rule toy_env))) "!"%char).
    by left.
  - apply (proj2 (proj2 (proj2 (keep_token_substring_rule toy_env)))
             "e-mail" "e"%char).
    + by left.
    + decide_by_computation.
    + decide_by_computation.
Defined.

(** C3, as the specification states it, fails: the token of the two
    characters ^ and _ is no stopword, so the specification keeps it; the
    code removes it, because the two characters are neighbours in
    [string.punctuation]. *)
Lemma keep_token_multichar_counterexample :
  ¬ removed_by_spec (list_to_set stopwords_excerpt) "^_"
  ∧ DataPreprocessor.keep_token (list_to_set stopwords_excerpt) "^_" = false
  ∧ DataPreprocessor.keep_token (list_to_set stopwords_excerpt) "--" = true
  ∧ fst (DataPreprocessor.preprocess_text toy_env (PyStr "Well ^_ done") []) =
    "well done".
Proof.
  split; [|repeat split; vm_compute; reflexivity].
  intros [Hstop|(c & [=] & _)].
  apply elem_of_list_to_set in Hstop. unfold stopwords_excerpt in Hstop.
  repeat (apply elem_of_cons in Hstop as [[=]|Hstop]).
  by apply elem_of_nil in Hstop.
Qed.

(** C8. [preprocess_text] returns the empty string for every input that is not
    a string, and what it returns for an input does not depend on the calls
    made before (the state it is run in). *)
Theorem preprocess_text_total (env : TextEnv) (text : pyobj)
    (log log' : list event) :
  fst (DataPreprocessor.preprocess_text env text log) =
  fst (DataPreprocessor.preprocess_text env text log')
  ∧ (is_str text = false →
     fst (DataPreprocessor.preprocess_text env text log) = "").
Proof.
  rewrite !preprocess_text_run. split; [done|]. by destruct text.
Qed.

Lemma preprocess_text_total_witness :
  fst (DataPreprocessor.preprocess_text toy_env PyNone []) = ""
  ∧ fst (DataPreprocessor.preprocess_text toy_env (PyInt 42) call_events) = "".
Proof.
  split.
  - exact (proj2 (preprocess_text_total toy_env PyNone [] []) eq_refl).
  - exact (proj2 (preprocess_text_total toy_env (PyInt 42) call_events [])
             eq_refl).
Defined.

(** C4, as the code has it. The resources are loaded when the module is
    imported, before any call; in addition every call of [preprocess_text],
    whatever its input, constructs a lemmatizer and rebuilds the stopword set,
    so a frame of n rows costs n constructions of each. *)
Theorem preprocess_text_rebuilds_resources (env : TextEnv) :
  snd (module_import []) =
    [Download "stopwords"; Download "punkt"; Download "wordnet";
     StopwordsWords; NewLemmatizer]
  ∧ (∀ text log,
       snd (DataPreprocessor.preprocess_text env text log) =
       log ++ [NewLemmatizer; StopwordsWords; BuildStopSet])
  ∧ (∀ rows log,
       let log' := snd (DataPreprocessor.apply_text_preprocessing env
                          (Frame rows) log) in
       count_event NewLemmatizer log' =
         count_event NewLemmatizer log + length rows
       ∧ count_event BuildStopSet log' =
         count_event BuildStopSet log + length rows).
Proof.
  split; [done|]. split.
  - intros text log. by rewrite preprocess_text_run.
  - intros rows log. simpl.
    unfold DataPreprocessor.apply_text_preprocessing, mbind, traced_bind.
    rewrite traced_map_with_processed. simpl.
    unfold count_event. rewrite !filter_app, !length_app.
    fold (count_event NewLemmatizer (mjoin ((fun _ => call_events) <$> rows))).
    fold (count_event BuildStopSet (mjoin ((fun _ => call_events) <$> rows))).
    by rewrite !count_event_calls.
Qed.

(** C4, as the specification states it, fails: a call after the import leaves
    a longer log, with a second lemmatizer construction in it. *)
Lemma preprocess_text_reinitializes_counterexample :
  let at_start := snd (module_import []) in
  let after_call :=
    snd (DataPreprocessor.preprocess_text toy_env (PyStr "Hello") at_start) in
  after_call ≠ at_start
  ∧ count_event NewLemmatizer at_start = 1
  ∧ count_event NewLemmatizer after_call = 2
  ∧ count_event BuildStopSet after_call = 1.
Proof. by vm_compute. Qed.

(** ** The error monad *)

Lemma mapM_result_Ok {A B} (f : A → result B) (l : list A) :
  Forall (fun x => ∃ y, f x = Ok y) l →
  ∃ ys, mapM f l = Ok ys ∧ Forall2 (fun x y => f x = Ok y) l ys.
Proof.
  induction 1 as [|x l [y Hy] _ (ys & Hys & Hall)]; simpl.
  - by exists [].
  - exists (y :: ys). rewrite Hy. simpl. rewrite Hys. simpl.
    split; [done | by constructor].
Qed.

Lemma mapM_result_Raise {A B} (f : A → result B) (before after : list A) x e :
  Forall (fun x => ∃ y, f x = Ok y) before →
  f x = Raise e →
  mapM f (before ++ x :: after) = Raise e.
Proof.
  intros Hbefore Hx. induction Hbefore as [|z l [y Hy] _ IH]; simpl.
  - by rewrite Hx.
  - rewrite Hy. simpl. by rewrite IH.
Qed.

(** ** DataLoader *)

Lemma to_dataframe_not_dict (v : pyobj) :
  is_dict v = false → DataLoader.flatten v = Raise AttributeError.
Proof. by destruct v. Qed.

Lemma transcript_records_not_dict (tid : string) (data : pyobj) :
  is_dict data = false →
  DataLoader.transcript_records (tid, data) = Raise AttributeError.
Proof. by destruct data. Qed.

Lemma transcript_records_no_content (tid : string) d :
  dict_get d "content" = None →
  DataLoader.transcript_records (tid, PyDict d) = Ok [].
Proof.
  intros Hd. unfold DataLoader.transcript_records. simpl. by rewrite Hd.
Qed.

Lemma later_stages_return (env : TextEnv) (rows : list FlatRecord)
    (log : list event) :
  ∃ cleaned out log',
    DataCleaner.clean_data (Frame rows) = Ok (Frame cleaned)
    ∧ DataPreprocessor.transform_data env (Frame cleaned) log =
      (Ok (Frame out), log')
    ∧ DataPreprocessor.flat <$> out = cleaned.
Proof.
  exists (filter DataCleaner.complete (DataCleaner.drop_duplicates rows)).
  eexists _, _. split; [reflexivity|]. split.
  - unfold DataPreprocessor.transform_data,
      DataPreprocessor.apply_text_preprocessing, mbind, traced_bind.
    rewrite traced_map_with_processed. reflexivity.
  - generalize (filter DataCleaner.complete (DataCleaner.drop_duplicates rows)).
    intros l. induction l as [|r l IH]; [done|].
    rewrite !fmap_cons, IH. by rewrite with_processed_run.
Qed.

(** C5, as the code has it. Loading raises [FileNotFoundError] when the file
    does not exist, [JSONDecodeError] when it is no JSON document, and
    [AttributeError] when the top level of the document, or a transcript
    record reached by the loop, is not a mapping. A record without a
    [content] key is no error: it yields no rows. For a store that follows
    the data model (every text field a string or null) and has a turn, the
    stages after the loading return: [_load_data] gives a table. *)
Theorem load_failures (env : TextEnv) (fs : DataLoader.filesystem)
    (path : string) :
  (fs path = DataLoader.NoFile →
     DataLoader.to_dataframe fs path = Raise FileNotFoundError
     ∧ ∀ log, TranscriptAnalyzer._load_data env fs path log =
              (Raise FileNotFoundError, log))
  ∧ (fs path = DataLoader.NotJson →
     DataLoader.to_dataframe fs path = Raise JSONDecodeError)
  ∧ (∀ v, fs path = DataLoader.Json v → is_dict v = false →
          DataLoader.to_dataframe fs path = Raise AttributeError)
  ∧ (∀ before tid data after,
       fs path = DataLoader.Json (PyDict (before ++ (tid, data) :: after)) →
       Forall (fun entry => ∃ rows,
                 DataLoader.transcript_records entry = Ok rows) before →
       is_dict data = false →
       DataLoader.to_dataframe fs path = Raise AttributeError)
  ∧ (∀ tid d, dict_get d "content" = None →
       DataLoader.transcript_records (tid, PyDict d) = Ok [])
  ∧ (∀ v rows log,
       fs path = DataLoader.Json v → typed_store v = true →
       DataLoader.flatten v = Ok rows → rows ≠ [] →
       ∃ cleaned out log',
         DataLoader.to_dataframe fs path = Ok (Frame rows)
         ∧ DataCleaner.clean_data (Frame rows) = Ok (Frame cleaned)
         ∧ DataPreprocessor.transform_data env (Frame cleaned) log =
           (Ok (Frame out), log')
         ∧ TranscriptAnalyzer._load_data env fs path log =
           (Ok (Frame out), log')).
Proof.
  split; [|split; [|split; [|split; [|split]]]].
  - intros Hfs. unfold TranscriptAnalyzer._load_data, DataLoader.to_dataframe,
      DataLoader.load_data, DataLoader.path_exists. by rewrite Hfs.
  - intros Hfs. unfold DataLoader.to_dataframe, DataLoader.load_data.
    by rewrite Hfs.
  - intros v Hfs Hv. unfold DataLoader.to_dataframe, DataLoader.load_data.
    rewrite Hfs. simpl. by rewrite to_dataframe_not_dict.
  - intros before tid data after Hfs Hbefore Hdata.
    unfold DataLoader.to_dataframe, DataLoader.load_data. rewrite Hfs. simpl.
    unfold DataLoader.flatten. simpl.
    by rewrite (mapM_result_Raise _ before after (tid, data) AttributeError)
      by auto using transcript_records_not_dict.
  - apply transcript_records_no_content.
  - intros v rows log Hfs _ Hflat Hne.
    destruct (later_stages_return env rows log)
      as (cleaned & out & log' & Hclean & Hrun & _).
    exists cleaned, out, log'.
    assert (DataLoader.to_dataframe fs path = Ok (Frame rows)) as Hdf.
    { unfold DataLoader.to_dataframe, DataLoader.load_data.
      rewrite Hfs. simpl. rewrite Hflat. simpl. by destruct rows. }
    split; [done|]. split; [done|]. split; [done|].
    unfold TranscriptAnalyzer._load_data, DataLoader.path_exists.
    rewrite Hfs, Hdf.
    change (Ok (Frame rows) ≫= DataCleaner.clean_data)
      with (DataCleaner.clean_data (Frame rows)).
    by rewrite Hclean.
Qed.

Lemma load_failures_witness :
  DataLoader.to_dataframe (single_file (PyList [])) "absent.json" =
    Raise FileNotFoundError
  ∧ DataLoader.to_dataframe (single_file (PyList [])) "data.json" =
    Raise AttributeError
  ∧ DataLoader.to_dataframe
      (single_file (PyDict [("t1", PyDict []); ("t2", PyStr "x")])) "data.json" =
    Raise AttributeError
  ∧ ∃ out log',
      TranscriptAnalyzer._load_data toy_env (single_file store_two_transcripts)
        "data.json" [] = (Ok (Frame out), log').
Proof.
  split; [|split; [|split]].
  - exact (proj1 (proj1 (load_failures toy_env (single_file (PyList []))
                           "absent.json") eq_refl)).
  - exact (proj1 (proj2 (proj2 (load_failures toy_env (single_file (PyList []))
                                  "data.json"))) (PyList []) eq_refl eq_refl).
  - refine (proj1 (proj2 (proj2 (proj2 (load_failures toy_env
              (single_file (PyDict [("t1", PyDict []); ("t2", PyStr "x")]))
              "data.json"))))
              [("t1", PyDict [])] "t2" (PyStr "x") [] eq_refl _ eq_refl).
    constructor; [by exists [] | constructor].
  - destruct (proj2 (proj2 (proj2 (proj2 (proj2 (load_failures toy_env
                (single_file store_two_transcripts) "data.json")))))
                store_two_transcripts _ [] eq_refl eq_refl eq_refl)
      as (cleaned & out & log' & _ & _ & _ & Hrun); [discriminate|].
    by exists out, log'.
Defined.

(** C5, as the specification states it, fails: the record of "t1" has no
    [content] key, and loading returns the one row of "t2"; the whole
    pipeline returns as well. *)
Lemma load_missing_content_counterexample :
  DataLoader.to_dataframe (single_file store_missing_content) "data.json" =
    Ok (Frame [row "t2" (Some "agent_1") (Some "Hello World !")
                 (Some "Positive")])
  ∧ fst (TranscriptAnalyzer._load_data toy_env
           (single_file store_missing_content) "data.json" []) =
    Ok (Frame [{| DataPreprocessor.flat :=
                    row "t2" (Some "agent_1") (Some "Hello World !")
                      (Some "Positive");
                  DataPreprocessor.processed_message := "hello world" |}]).
Proof. split; vm_compute; reflexivity. Qed.

(** An empty store is a mapping, and loading it returns; it is the cleaning
    step that stops the run, on the frame without columns. *)
Lemma load_empty_store :
  DataLoader.to_dataframe (single_file (PyDict [])) "data.json" = Ok NoColumns
  ∧ fst (TranscriptAnalyzer._load_data toy_env (single_file (PyDict []))
           "data.json" []) = Raise KeyError.
Proof. split; reflexivity. Qed.

(** ** Series operations *)

Lemma unique_elem_of `{Countable A} (l : list A) (x : A) : x ∈ unique l ↔ x ∈ l.
Proof.
  unfold unique. split.
  - by intros [? _]%first_seen_elem_of.
  - intros Hx.
    destruct (first_seen_covers id ∅ l x Hx (not_elem_of_empty _))
      as (y & Hy & Heq).
    simpl in Heq. by subst y.
Qed.

Lemma unique_NoDup `{Countable A} (l : list A) : NoDup (unique l).
Proof.
  unfold unique. rewrite <-(list_fmap_id (first_seen id ∅ l)).
  apply first_seen_NoDup.
Qed.

Lemma value_counts_lookup (col : list (option string)) (v : string) :
  default 0 (value_counts col !! v) = length (filter (fun c => c = Some v) col).
Proof.
  induction col as [|c col IH]; [done|].
  rewrite filter_cons. simpl. destruct c as [w|].
  - destruct (decide (w = v)) as [->|Hne].
    + rewrite lookup_insert_eq, decide_True by done. simpl. by rewrite IH.
    + rewrite lookup_insert_ne, decide_False by congruence. done.
  - by rewrite decide_False.
Qed.

Lemma series_mode_elem_of (col : list (option string)) (m : string) :
  m ∈ series_mode col ↔
  m ∈ omap id col ∧
  occurrences m (omap id col) =
  max_list ((fun v => occurrences v (omap id col)) <$> omap id col).
Proof.
  unfold series_mode. rewrite merge_sort_Permutation.
  rewrite list_elem_of_filter, unique_elem_of. tauto.
Qed.

Lemma series_mode_nonempty (col : list (option string)) :
  omap id col ≠ [] → series_mode col ≠ [].
Proof.
  intros Hvals Hnil.
  assert (max_list ((fun v => occurrences v (omap id col)) <$> omap id col)
          ∈ (fun v => occurrences v (omap id col)) <$> omap id col) as Hmax.
  { apply max_list_elem_of. by destruct (omap id col). }
  apply list_elem_of_fmap in Hmax as (m & Hm & Hin).
  assert (m ∈ series_mode col) as Hmode by (by apply series_mode_elem_of).
  rewrite Hnil in Hmode. by apply elem_of_nil in Hmode.
Qed.

(** The first of the sorted modes is the most frequent value, and the least
    in string order of the values as frequent as it. *)
Lemma series_mode_head (col : list (option string)) (m : string) rest :
  series_mode col = m :: rest → is_mode (omap id col) m.
Proof.
  intros Hmode.
  assert (m ∈ series_mode col) as [Hm Hmax]%series_mode_elem_of
    by (rewrite Hmode; by left).
  split; [done|]. intros v Hv. split.
  - rewrite Hmax. apply max_list_elem_of_le, list_elem_of_fmap. eauto.
  - intros Heq.
    assert (v ∈ series_mode col) as Hin
      by (apply series_mode_elem_of; split; [done | congruence]).
    rewrite Hmode in Hin. apply elem_of_cons in Hin as [->|Hin]; [done|].
    pose proof (StronglySorted_merge_sort String.le
      (filter (fun v => occurrences v (omap id col) =
                 max_list ((fun v => occurrences v (omap id col))
                           <$> omap id col))
              (unique (omap id col)))) as Hsorted.
    fold (series_mode col) in Hsorted. rewrite Hmode in Hsorted.
    apply StronglySorted_cons in Hsorted as [Hle _].
    by eapply Forall_forall in Hle.
Qed.

Lemma result_pair_inv {K A} (m : result A) (x k : K) (a : A) :
  m ≫= (fun s => mret (x, s)) = Ok (k, a) → k = x ∧ m = Ok a.
Proof. destruct m; [by intros [= <- <-] | done]. Qed.

Lemma mapM_result_some_Raise {A B} (f : A → result B) (l : list A) e :
  Forall (fun x => (∃ y, f x = Ok y) ∨ f x = Raise e) l →
  Exists (fun x => f x = Raise e) l →
  mapM f l = Raise e.
Proof.
  induction 1 as [|x l [[y Hy]|Hx] Hl IH]; intros Hex.
  - by apply Exists_nil in Hex.
  - apply Exists_cons in Hex as [Hx|Hex]; [congruence|].
    simpl. rewrite Hy. simpl. by rewrite IH.
  - simpl. by rewrite Hx.
Qed.

(** ** TranscriptAnalyzer *)

Import DataPreprocessor TranscriptAnalyzer.

Lemma agent_overall_sentiment_absent (tdf : list NormalizedRecord) a :
  rows_of_agent a tdf = [] → agent_overall_sentiment tdf a = Ok "N/A".
Proof. intros Hrows. unfold agent_overall_sentiment. by rewrite Hrows. Qed.

(** An agent with rows, none of which has a sentiment: the mode is empty and
    [.iloc[0]] is out of bounds. *)
Lemma agent_overall_sentiment_all_null (tdf : list NormalizedRecord) a :
  rows_of_agent a tdf ≠ [] → sentiments_of a tdf = [] →
  agent_overall_sentiment tdf a = Raise IndexError.
Proof.
  intros Hrows Hnull. unfold agent_overall_sentiment.
  destruct (sentiment ∘ flat <$> rows_of_agent a tdf) as [|c col] eqn:Hcol.
  - apply fmap_nil_inv in Hcol. done.
  - assert (series_mode (c :: col) = []) as ->; [|done].
    destruct (series_mode (c :: col)) as [|m rest] eqn:Hmode; [done|].
    apply series_mode_head in Hmode as [Hm _].
    unfold sentiments_of in Hnull. rewrite Hcol in Hnull.
    rewrite Hnull in Hm. by apply elem_of_nil in Hm.
Qed.

(** An agent with a sentiment gets the mode, ties going to the least string. *)
Lemma agent_overall_sentiment_mode (tdf : list NormalizedRecord) a :
  sentiments_of a tdf ≠ [] →
  ∃ m, agent_overall_sentiment tdf a = Ok m ∧ is_mode (sentiments_of a tdf) m.
Proof.
  intros Hsent. unfold agent_overall_sentiment, sentiments_of in *.
  destruct (sentiment ∘ flat <$> rows_of_agent a tdf) as [|c col] eqn:Hcol;
    [done|].
  destruct (series_mode (c :: col)) as [|m rest] eqn:Hmode.
  - by apply series_mode_nonempty in Hmode.
  - exists m. split; [done|]. by eapply series_mode_head.
Qed.

Lemma agent_overall_sentiment_cases (tdf : list NormalizedRecord) a :
  (∃ s, agent_overall_sentiment tdf a = Ok s)
  ∨ agent_overall_sentiment tdf a = Raise IndexError.
Proof.
  unfold agent_overall_sentiment.
  destruct (sentiment ∘ flat <$> rows_of_agent a tdf); [by left; eexists|].
  destruct (series_mode _); [by right | by left; eexists].
Qed.

Lemma rows_of_agent_elem_of (tdf : list NormalizedRecord) a :
  Some a ∈ agent ∘ flat <$> tdf → rows_of_agent (Some a) tdf ≠ [].
Proof.
  intros (r & Hr & Hin)%list_elem_of_fmap Hnil.
  assert (r ∈ rows_of_agent (Some a) tdf) as Hrow
    by (by apply list_elem_of_filter).
  rewrite Hnil in Hrow. by apply elem_of_nil in Hrow.
Qed.

Lemma sentiments_by_agent_Ok (tdf : list NormalizedRecord) :
  (∀ a, Some a ∈ agent ∘ flat <$> tdf → sentiments_of (Some a) tdf ≠ []) →
  ∃ overall, sentiments_by_agent tdf = Ok overall
    ∧ ∀ a, overall !! a =
           if decide (a ∈ agent ∘ flat <$> tdf)
           then match agent_overall_sentiment tdf a with
                | Ok s => Some s
                | Raise _ => None
                end
           else None.
Proof.
  intros Hsent. unfold sentiments_by_agent.
  destruct (mapM_result_Ok
    (fun a => s ← agent_overall_sentiment tdf a; mret (a, s))
    (unique (agent ∘ flat <$> tdf))) as (entries & Hrun & Hall).
  { apply Forall_forall. intros [a|] Ha. all: apply (proj1 (unique_elem_of _ _)) in Ha.
    - destruct (agent_overall_sentiment_mode tdf (Some a)) as (m & -> & _);
        [by apply Hsent | eexists; reflexivity].
    - rewrite agent_overall_sentiment_absent by done. eexists; reflexivity. }
  rewrite Hrun. simpl. eexists. split; [done|]. intros a.
  assert (entries.*1 = unique (agent ∘ flat <$> tdf)) as Hkeys.
  { clear Hrun. induction Hall as [|x [k s] l es Hx _ IH]; [done|].
    rewrite fmap_cons, IH. simpl. f_equal.
    by apply result_pair_inv in Hx as [-> _]. }
  case_decide as Ha.
  - apply (proj2 (unique_elem_of _ _)) in Ha. rewrite <-Hkeys in Ha.
    apply list_elem_of_fmap in Ha as ([k s] & -> & Hin). simpl.
    assert (agent_overall_sentiment tdf k = Ok s) as ->.
    { clear Hkeys Hrun. induction Hall as [|x e l es Hx _ IH];
        [by apply elem_of_nil in Hin|].
      apply elem_of_cons in Hin as [<-|Hin]; [|by apply IH].
      by apply result_pair_inv in Hx as [-> ?]. }
    apply elem_of_list_to_map; [|done].
    rewrite Hkeys. apply unique_NoDup.
  - apply not_elem_of_list_to_map. rewrite Hkeys. by rewrite unique_elem_of.
Qed.

Lemma join_cells_Ok (tdf : list NormalizedRecord) :
  Forall (fun r => message (flat r) ≠ None) tdf →
  join_cells (message ∘ flat <$> tdf) = Ok (full_text tdf).
Proof.
  intros Hmsg. unfold join_cells, full_text.
  assert (mapM (fun c : option string =>
                  match c with Some s => Ok s | None => Raise TypeError end)
               (message ∘ flat <$> tdf) = Ok (omap (message ∘ flat) tdf)) as ->;
    [|done].
  induction Hmsg as [|r l Hr _ IH]; [done|].
  rewrite fmap_cons. simpl. destruct (message (flat r)); [|done].
  simpl. by rewrite IH.
Qed.

Lemma sentiments_by_agent_Raise (tdf : list NormalizedRecord) a :
  Some a ∈ agent ∘ flat <$> tdf → sentiments_of (Some a) tdf = [] →
  sentiments_by_agent tdf = Raise IndexError.
Proof.
  intros Ha Hnull. unfold sentiments_by_agent.
  rewrite (mapM_result_some_Raise _ _ IndexError); [done| |].
  - apply Forall_forall. intros x _.
    destruct (agent_overall_sentiment_cases tdf x) as [[s ->]| ->];
      [left; by eexists | by right].
  - apply Exists_exists. exists (Some a).
    split; [by apply unique_elem_of|].
    rewrite agent_overall_sentiment_all_null;
      [done | by apply rows_of_agent_elem_of | done].
Qed.

Lemma analyzable_messages (tdf : list NormalizedRecord) :
  analyzable tdf → Forall (fun r => message (flat r) ≠ None) tdf.
Proof. intros Han. eapply Forall_impl; [exact Han|]. by intros r [? _]. Qed.

Lemma analyzable_agents (tdf : list NormalizedRecord) :
  analyzable tdf →
  ∀ a, Some a ∈ agent ∘ flat <$> tdf → sentiments_of (Some a) tdf ≠ [].
Proof.
  intros Han a (r & Hr & Hin)%list_elem_of_fmap.
  apply (proj1 (Forall_forall _ _) Han) in Hin as [_ Hsent].
  simpl in Hr. rewrite <-Hr in Hsent. by apply Hsent.
Qed.

(** What [analyze_transcript] does up to the call of the summarizer, for a
    transcript with rows that all have a message and whose agents all have a
    sentiment. *)
Lemma analyze_transcript_run (summarizer : Summarizer)
    (rows : list NormalizedRecord) (tid : string) :
  let tdf := filter (fun r => transcript_id (flat r) = tid) rows in
  tdf ≠ [] → analyzable tdf →
  ∃ overall,
    sentiments_by_agent tdf = Ok overall
    ∧ analyze_transcript summarizer (Frame rows) tid =
      summary_list ← summarizer (full_text tdf) 150%Z 30%Z false;
      mret (Insights {|
        analysis_transcript_id := tid;
        possible_article_link := head tdf ≫= article_url ∘ flat;
        message_counts :=
          {[ "agent_1" := default 0 (value_counts (agent ∘ flat <$> tdf)
                                       !! "agent_1");
             "agent_2" := default 0 (value_counts (agent ∘ flat <$> tdf)
                                       !! "agent_2") ]};
        overall_sentiments :=
          {[ "agent_1" := default "N/A" (overall !! Some "agent_1");
             "agent_2" := default "N/A" (overall !! Some "agent_2") ]};
        conversation_summary :=
          match summary_list with
          | summary_text :: _ => summary_text
          | [] => "Could not generate summary."
          end;
        accuracy_report := accuracy_text |}).
Proof.
  intros tdf Hne Han.
  destruct (sentiments_by_agent_Ok tdf (analyzable_agents tdf Han))
    as (overall & Hov & _).
  pose proof (analyzable_messages tdf Han) as Hmsg.
  exists overall. split; [done|].
  unfold analyze_transcript. fold tdf.
  pose proof (join_cells_Ok tdf Hmsg) as Hjoin.
  destruct tdf as [|first rest] eqn:Htdf; [done|].
  by rewrite Hov, Hjoin.
Qed.

Lemma value_counts_agents (tdf : list NormalizedRecord) (ag : string) :
  default 0 (value_counts (agent ∘ flat <$> tdf) !! ag) =
  length (filter (fun r => agent (flat r) = Some ag) tdf).
Proof.
  rewrite value_counts_lookup.
  induction tdf as [|r tdf IH]; [done|].
  rewrite fmap_cons, !filter_cons. simpl.
  destruct (decide (agent (flat r) = Some ag)); simpl; by rewrite IH.
Qed.

(** C9, as the code has it. For a transcript with matching rows that
    [analyze_transcript] gets through (every agent has a sentiment, the
    summarizer returns), [message_counts] has the two keys agent_1 and
    agent_2, each with the number of matching rows of that agent (0 when it
    has none); no other agent has an entry. *)
Theorem message_counts_two_agents (summarizer : Summarizer)
    (rows : list NormalizedRecord) (tid : string) (summary_list : list string) :
  let tdf := filter (fun r => transcript_id (flat r) = tid) rows in
  tdf ≠ [] → analyzable tdf →
  summarizer (full_text tdf) 150%Z 30%Z false = Ok summary_list →
  ∃ a, analyze_transcript summarizer (Frame rows) tid = Ok (Insights a)
    ∧ ∀ ag, message_counts a !! ag =
            if decide (ag = "agent_1" ∨ ag = "agent_2")
            then Some (length (filter (fun r => agent (flat r) = Some ag) tdf))
            else None.
Proof.
  intros tdf Hne Han Hsum.
  destruct (analyze_transcript_run summarizer rows tid Hne Han)
    as (overall & _ & Hrun).
  fold tdf in Hrun. rewrite Hsum in Hrun. simpl in Hrun.
  eexists. split; [exact Hrun|]. intros ag. simpl.
  rewrite !value_counts_agents.
  destruct (decide (ag = "agent_1")) as [->|H1].
  { by rewrite lookup_insert_eq, decide_True by auto. }
  rewrite lookup_insert_ne by done.
  destruct (decide (ag = "agent_2")) as [->|H2].
  { by rewrite lookup_singleton_eq, decide_True by auto. }
  rewrite lookup_singleton_ne by done.
  by rewrite decide_False by (intros [?|?]; done).
Qed.

Lemma message_counts_two_agents_witness :
  ∃ a, analyze_transcript echo_summarizer (Frame rows_three_agents) "t1" =
       Ok (Insights a)
    ∧ ∀ ag, message_counts a !! ag =
            if decide (ag = "agent_1" ∨ ag = "agent_2")
            then Some (length (filter (fun r => agent (flat r) = Some ag)
                                 (filter (fun r => transcript_id (flat r) = "t1")
                                    rows_three_agents)))
            else None.
Proof.
  apply (message_counts_two_agents echo_summarizer rows_three_agents "t1"
           ["Summary: Hello Good day"]).
  - discriminate.
  - decide_by_computation.
  - reflexivity.
Defined.

(** C9, as the specification states it, fails: "t1" has one row of agent_3,
    and [message_counts] has no entry for agent_3. *)
Lemma message_counts_other_agent_counterexample :
  ∃ a, analyze_transcript echo_summarizer (Frame rows_three_agents) "t1" =
       Ok (Insights a)
    ∧ length (filter (fun r => transcript_id (flat r) = "t1"
                               ∧ agent (flat r) = Some "agent_3")
                rows_three_agents) = 1
    ∧ message_counts a !! "agent_3" = None.
Proof.
  eexists. split; [vm_compute; reflexivity|].
  split; vm_compute; reflexivity.
Qed.

(** C2, as the code has it. For a transcript with matching rows (every agent
    with a sentiment): when the summarizer returns an empty list, the summary
    is the fallback string; when the summarizer raises, [analyze_transcript]
    raises the same exception, as nothing in it catches one. *)
Theorem summarizer_failure_modes (summarizer : Summarizer)
    (rows : list NormalizedRecord) (tid : string) :
  let tdf := filter (fun r => transcript_id (flat r) = tid) rows in
  tdf ≠ [] → analyzable tdf →
  (summarizer (full_text tdf) 150%Z 30%Z false = Ok [] →
   ∃ a, analyze_transcript summarizer (Frame rows) tid = Ok (Insights a)
     ∧ conversation_summary a = "Could not generate summary.")
  ∧ (∀ e, summarizer (full_text tdf) 150%Z 30%Z false = Raise e →
          analyze_transcript summarizer (Frame rows) tid = Raise e).
Proof.
  intros tdf Hne Han.
  destruct (analyze_transcript_run summarizer rows tid Hne Han)
    as (overall & _ & Hrun).
  fold tdf in Hrun. split.
  - intros Hsum. rewrite Hsum in Hrun. eexists. split; [exact Hrun | done].
  - intros e Hsum. by rewrite Hsum in Hrun.
Qed.

Lemma summarizer_failure_modes_witness :
  (∃ a, analyze_transcript silent_summarizer (Frame rows_three_agents) "t1" =
        Ok (Insights a)
     ∧ conversation_summary a = "Could not generate summary.")
  ∧ analyze_transcript failing_summarizer (Frame rows_scenario) "t1" =
    Raise (RuntimeError "backend unavailable").
Proof.
  split.
  - apply (summarizer_failure_modes silent_summarizer rows_three_agents "t1").
    + discriminate.
    + decide_by_computation.
    + reflexivity.
  - apply (summarizer_failure_modes failing_summarizer rows_scenario "t1").
    + discriminate.
    + decide_by_computation.
    + reflexivity.
Defined.

(** C2, as the specification states it, fails: the failure of the summarizer
    reaches the caller of [analyze_transcript]. *)
Lemma summarizer_exception_counterexample :
  failing_summarizer "Hello Good day" 150%Z 30%Z false =
    Raise (RuntimeError "backend unavailable")
  ∧ analyze_transcript failing_summarizer (Frame rows_three_agents) "t1" =
    Raise (RuntimeError "backend unavailable").
Proof. split; vm_compute; reflexivity. Qed.

(** The mode of the scenario, and a tie that goes to the least string. *)
Example overall_sentiments_scenario :
  agent_overall_sentiment rows_scenario (Some "agent_1") = Ok "Positive"
  ∧ agent_overall_sentiment rows_scenario (Some "agent_2") = Ok "Curious"
  ∧ agent_overall_sentiment rows_scenario (Some "agent_3") = Ok "N/A".
Proof. repeat split; vm_compute; reflexivity. Qed.

(** X16. For the two agents that are reported, when every agent has a
    sentiment: the mode of the agent's sentiments, the least string among the
    most frequent ones, and "N/A" for an agent without rows. *)
Lemma overall_sentiments_two_agents (summarizer : Summarizer)
    (rows : list NormalizedRecord) (tid : string) (summary_list : list string) :
  let tdf := filter (fun r => transcript_id (flat r) = tid) rows in
  tdf ≠ [] → analyzable tdf →
  summarizer (full_text tdf) 150%Z 30%Z false = Ok summary_list →
  ∃ a, analyze_transcript summarizer (Frame rows) tid = Ok (Insights a)
    ∧ dom (overall_sentiments a) = {[ "agent_1"; "agent_2" ]}
    ∧ ∀ ag s, overall_sentiments a !! ag = Some s →
              if decide (Some ag ∈ agent ∘ flat <$> tdf)
              then is_mode (sentiments_of (Some ag) tdf) s
              else s = "N/A".
Proof.
  intros tdf Hne Han Hsum.
  destruct (sentiments_by_agent_Ok tdf (analyzable_agents tdf Han))
    as (overall & Hov & Hlookup).
  destruct (analyze_transcript_run summarizer rows tid Hne Han)
    as (overall' & Hov' & Hrun).
  fold tdf in Hov', Hrun. rewrite Hov in Hov'. injection Hov' as <-.
  rewrite Hsum in Hrun. eexists. split; [exact Hrun|]. simpl.
  split; [by rewrite dom_insert_L, dom_singleton_L|].
  assert (∀ ag, if decide (Some ag ∈ agent ∘ flat <$> tdf)
                then is_mode (sentiments_of (Some ag) tdf)
                       (default "N/A" (overall !! Some ag))
                else default "N/A" (overall !! Some ag) = "N/A") as Hval.
  { intros ag. rewrite Hlookup. case_decide as Hag; [|done].
    destruct (agent_overall_sentiment_mode tdf (Some ag)) as (m & -> & Hm);
      [by apply analyzable_agents | done]. }
  intros ag s.
  destruct (decide (ag = "agent_1")) as [->|H1].
  { rewrite lookup_insert_eq. intros [= <-]. apply Hval. }
  rewrite lookup_insert_ne by done.
  destruct (decide (ag = "agent_2")) as [->|H2].
  { rewrite lookup_singleton_eq. intros [= <-]. apply Hval. }
  by rewrite lookup_singleton_ne.
Qed.

(** C1. The claim holds except where the code fails it: an agent whose rows
    all have a null sentiment. Such rows survive cleaning; the mode of the
    agent's sentiments is then empty, and [analyze_transcript] raises
    [IndexError] where the claim has the entry "N/A". *)
Theorem analyze_null_sentiment_raises :
  ∃ df, fst (_load_data toy_env (single_file store_null_sentiment)
               "data.json" []) = Ok df
    ∧ frame_rows df =
      [{| flat := row "t1" (Some "agent_1") (Some "hi") None;
          processed_message := "hi" |};
       {| flat := row "t1" (Some "agent_2") (Some "hello") (Some "Positive");
          processed_message := "hello" |}]
    ∧ analyze_transcript echo_summarizer df "t1" = Raise IndexError.
Proof.
  eexists. split; [vm_compute; reflexivity|].
  split; [reflexivity | vm_compute; reflexivity].
Qed.

(** X17. The same for every table: an agent of the transcript without a
    single sentiment stops the analysis with [IndexError], whatever the
    summarizer is. *)
Lemma analyze_transcript_null_sentiments (summarizer : Summarizer)
    (rows : list NormalizedRecord) (tid ag : string) :
  let tdf := filter (fun r => transcript_id (flat r) = tid) rows in
  Some ag ∈ agent ∘ flat <$> tdf → sentiments_of (Some ag) tdf = [] →
  analyze_transcript summarizer (Frame rows) tid = Raise IndexError.
Proof.
  intros tdf Hag Hnull. unfold analyze_transcript. fold tdf.
  pose proof (sentiments_by_agent_Raise tdf ag Hag Hnull) as Hraise.
  destruct tdf as [|first rest]; [by apply elem_of_nil in Hag|].
  by rewrite Hraise.
Qed.

(** * Further properties of the pipeline *)

(** ** DataLoader.to_dataframe *)

Lemma mapM_result_app {A B} (f : A → result B) (l1 l2 : list A) :
  mapM f (l1 ++ l2) =
  ys1 ← mapM f l1; ys2 ← mapM f l2; mret (ys1 ++ ys2).
Proof.
  induction l1 as [|x l1 IH]; simpl.
  - by destruct (mapM f l2).
  - destruct (f x) as [y|e]; simpl; [|done]. rewrite IH.
    destruct (mapM f l1) as [ys1|e]; simpl; [|done].
    by destruct (mapM f l2).
Qed.

(** X1. The rows of a store are the rows of its first transcripts followed by
    the rows of the others, and a failure in either part is the failure of
    the whole: flattening keeps the order of the store. *)
Theorem flatten_app (entries1 entries2 : list (string * pyobj)) :
  DataLoader.flatten (PyDict (entries1 ++ entries2)) =
  rows1 ← DataLoader.flatten (PyDict entries1);
  rows2 ← DataLoader.flatten (PyDict entries2);
  mret (rows1 ++ rows2).
Proof.
  unfold DataLoader.flatten. simpl. rewrite mapM_result_app.
  destruct (mapM DataLoader.transcript_records entries1) as [rs1|e]; simpl;
    [|done].
  destruct (mapM DataLoader.transcript_records entries2) as [rs2|e]; simpl;
    [|done].
  unfold mret, result_ret. f_equal. apply join_app.
Qed.

Lemma mapM_turn_record (tid : string) (url : pyobj)
    (turns : list (list (string * pyobj))) :
  ∃ rows,
    mapM (DataLoader.turn_record tid url) (PyDict <$> turns) = Ok rows
    ∧ rows = (fun t => {|
        transcript_id := tid;
        article_url := cell_of url;
        message := cell_of (default PyNone (dict_get t "message"));
        agent := cell_of (default PyNone (dict_get t "agent"));
        sentiment := cell_of (default PyNone (dict_get t "sentiment"));
        knowledge_source := default PyNone (dict_get t "knowledge_source");
        turn_rating := cell_of (default PyNone (dict_get t "turn_rating"))
      |}) <$> turns.
Proof.
  induction turns as [|t turns (rows & Hrun & ->)]; [by exists []|].
  eexists. rewrite !fmap_cons. simpl. rewrite Hrun. simpl. done.
Qed.

(** X2. A transcript whose content is a list of turn objects gives one row per
    turn, in the order of the turns; every row has the id and the article_url
    of the transcript, the fields of its turn, and null for a field the turn
    does not have. *)
Theorem transcript_records_turns (tid : string) (d : list (string * pyobj))
    (turns : list (list (string * pyobj))) :
  dict_get d "content" = Some (PyList (PyDict <$> turns)) →
  ∃ rows,
    DataLoader.transcript_records (tid, PyDict d) = Ok rows
    ∧ length rows = length turns
    ∧ ∀ i t, turns !! i = Some t →
        ∃ r, rows !! i = Some r
          ∧ transcript_id r = tid
          ∧ article_url r = cell_of (default PyNone (dict_get d "article_url"))
          ∧ knowledge_source r = default PyNone (dict_get t "knowledge_source")
          ∧ (∀ s, dict_get t "message" = Some (PyStr s) → message r = Some s)
          ∧ (dict_get t "message" = None → message r = None)
          ∧ (∀ s, dict_get t "agent" = Some (PyStr s) → agent r = Some s)
          ∧ (dict_get t "agent" = None → agent r = None)
          ∧ (∀ s, dict_get t "sentiment" = Some (PyStr s) → sentiment r = Some s)
          ∧ (dict_get t "sentiment" = None → sentiment r = None)
          ∧ (∀ s, dict_get t "turn_rating" = Some (PyStr s) →
                  turn_rating r = Some s)
          ∧ (dict_get t "turn_rating" = None → turn_rating r = None).
Proof.
  intros Hcontent. unfold DataLoader.transcript_records. simpl.
  rewrite Hcontent. simpl.
  destruct (mapM_turn_record tid (default PyNone (dict_get d "article_url"))
              turns) as (rows & -> & ->).
  eexists. split; [done|]. split; [by rewrite length_fmap|].
  intros i t Ht. eexists. rewrite list_lookup_fmap, Ht. simpl.
  split; [done|]. repeat split; try done; by intros; simplify_option_eq.
Qed.

Lemma transcript_records_turns_witness :
  ∃ rows,
    DataLoader.transcript_records
      ("t1", PyDict [("content",
                      PyList (PyDict <$> [[("message", PyStr "hi")];
                                          [("agent", PyStr "agent_2")]]))]) =
    Ok rows
    ∧ length rows = 2.
Proof.
  destruct (transcript_records_turns "t1"
              [("content",
                PyList (PyDict <$> [[("message", PyStr "hi")];
                                    [("agent", PyStr "agent_2")]]))]
              [[("message", PyStr "hi")]; [("agent", PyStr "agent_2")]]
              eq_refl) as (rows & Hrun & Hlen & _).
  exists rows. split; [exact Hrun | exact Hlen].
Defined.

(** X3. What the loops do with a content that is no list of objects: a null or
    a number cannot be iterated ([TypeError]); a string that is not empty is
    iterated by character, and an object by key, and the first item has no
    [get] ([AttributeError]), as has any turn that is not an object. *)
Theorem transcript_records_bad_content (tid : string)
    (d : list (string * pyobj)) :
  (dict_get d "content" = Some PyNone →
     DataLoader.transcript_records (tid, PyDict d) = Raise TypeError)
  ∧ (∀ n, dict_get d "content" = Some (PyInt n) →
     DataLoader.transcript_records (tid, PyDict d) = Raise TypeError)
  ∧ (∀ c s, dict_get d "content" = Some (PyStr (String c s)) →
     DataLoader.transcript_records (tid, PyDict d) = Raise AttributeError)
  ∧ (∀ k v rest, dict_get d "content" = Some (PyDict ((k, v) :: rest)) →
     DataLoader.transcript_records (tid, PyDict d) = Raise AttributeError)
  ∧ (∀ before turn after,
       dict_get d "content" =
         Some (PyList ((PyDict <$> before) ++ turn :: after)) →
       is_dict turn = false →
       DataLoader.transcript_records (tid, PyDict d) = Raise AttributeError).
Proof.
  unfold DataLoader.transcript_records. simpl.
  split; [|split; [|split; [|split]]].
  - by intros ->.
  - by intros n ->.
  - by intros c s ->.
  - by intros k v rest ->.
  - intros before turn after -> Hturn. simpl.
    apply mapM_result_Raise.
    + apply Forall_forall. intros x (t & -> & _)%list_elem_of_fmap.
      eexists. reflexivity.
    + by destruct turn.
Qed.

Lemma transcript_records_bad_content_witness :
  DataLoader.transcript_records ("t1", PyDict [("content", PyNone)]) =
    Raise TypeError
  ∧ DataLoader.transcript_records ("t1", PyDict [("content", PyStr "hi")]) =
    Raise AttributeError
  ∧ DataLoader.transcript_records
      ("t1", PyDict [("content", PyList [PyDict []; PyStr "turn"])]) =
    Raise AttributeError.
Proof.
  split; [|split].
  - exact (proj1 (transcript_records_bad_content "t1" [("content", PyNone)])
             eq_refl).
  - exact (proj1 (proj2 (proj2 (transcript_records_bad_content "t1"
                                  [("content", PyStr "hi")])))
             "h"%char "i" eq_refl).
  - exact (proj2 (proj2 (proj2 (proj2 (transcript_records_bad_content "t1"
             [("content", PyList [PyDict []; PyStr "turn"])]))))
             [[]] (PyStr "turn") [] eq_refl eq_refl).
Defined.

(** ** DataCleaner: how the two steps compose *)

Section first_seen_more.
Context `{Countable K} {A : Type} (key : A → K).
Implicit Types (seen : gset K) (l : list A).

(** On a list whose keys are distinct and unseen, nothing is dropped. *)
Lemma first_seen_NoDup_id seen l :
  NoDup (key <$> l) → (∀ x, x ∈ l → key x ∉ seen) → first_seen key seen l = l.
Proof.
  revert seen. induction l as [|x l IH]; intros seen Hnd Hseen; [done|].
  rewrite fmap_cons in Hnd. apply NoDup_cons in Hnd as [Hx Hnd]. simpl.
  rewrite decide_False by (apply Hseen; by left). f_equal.
  apply IH; [done|]. intros y Hy [Hk%elem_of_singleton|Hk]%elem_of_union.
  - apply Hx. rewrite <-Hk. apply list_elem_of_fmap. eauto.
  - apply (Hseen y); [by right | done].
Qed.

(** A key that no element has can be taken as seen. *)
Lemma first_seen_absent_key seen l k :
  (∀ x, x ∈ l → key x ≠ k) →
  first_seen key ({[k]} ∪ seen) l = first_seen key seen l.
Proof.
  revert seen. induction l as [|x l IH]; intros seen Hk; [done|]. simpl.
  assert (key x ≠ k) as Hx by (apply Hk; by left).
  assert (∀ y, y ∈ l → key y ≠ k) as Hl by (intros y ?; apply Hk; by right).
  destruct (decide (key x ∈ seen)) as [Hin|Hin].
  - rewrite decide_True by (by apply elem_of_union_r). by apply IH.
  - rewrite decide_False.
    + f_equal. rewrite <-(IH ({[key x]} ∪ seen) Hl).
      f_equal. apply set_eq. intros z.
      rewrite !elem_of_union, !elem_of_singleton. tauto.
    + intros [Hc%elem_of_singleton|Hc]%elem_of_union; [congruence | done].
Qed.

(** A filter that looks at the key alone can be applied before or after. *)
Lemma first_seen_filter_key (P : K → Prop) `{!∀ k, Decision (P k)} seen l :
  first_seen key seen (filter (fun x => P (key x)) l) =
  filter (fun x => P (key x)) (first_seen key seen l).
Proof.
  revert seen. induction l as [|x l IH]; intros seen; [done|].
  rewrite filter_cons. destruct (decide (P (key x))) as [HP|HP]; simpl.
  - destruct (decide (key x ∈ seen)); [apply IH|].
    rewrite filter_cons, decide_True by done. f_equal. apply IH.
  - destruct (decide (key x ∈ seen)); [apply IH|].
    rewrite filter_cons, decide_False by done. rewrite <-IH.
    symmetry. apply first_seen_absent_key.
    intros y [Hy _]%list_elem_of_filter Heq. apply HP. by rewrite <-Heq.
Qed.
End first_seen_more.

Lemma drop_duplicates_filter_complete (rows : list FlatRecord) :
  DataCleaner.drop_duplicates (filter DataCleaner.complete rows) =
  filter DataCleaner.complete (DataCleaner.drop_duplicates rows).
Proof.
  unfold DataCleaner.drop_duplicates.
  pose proof (first_seen_filter_key DataCleaner.dup_key
                (fun k => k.2 ≠ None ∧ k.1.2 ≠ None) ∅ rows) as Hk.
  exact Hk.
Qed.

(** X4. The two cleaning steps give the same frame in either order, on every
    frame: whether a row is complete is decided by its message and agent,
    which are part of the duplicate key. *)
Theorem cleaning_steps_commute (df : DataFrame FlatRecord) :
  (DataCleaner.remove_duplicates df ≫= DataCleaner.handle_missing_values) =
  (DataCleaner.handle_missing_values df ≫= DataCleaner.remove_duplicates).
Proof.
  destruct df as [|rows]; [done|]. simpl.
  unfold mbind, result_bind. simpl.
  by rewrite drop_duplicates_filter_complete.
Qed.

(** X5. Cleaning a cleaned frame changes nothing. *)
Theorem clean_data_idempotent (df df' : DataFrame FlatRecord) :
  DataCleaner.clean_data df = Ok df' → DataCleaner.clean_data df' = Ok df'.
Proof.
  destruct df as [|rows]; [done|]. simpl. intros [= <-]. simpl.
  unfold DataCleaner.clean_data. simpl. do 2 f_equal.
  assert (DataCleaner.drop_duplicates
            (filter DataCleaner.complete (DataCleaner.drop_duplicates rows)) =
          filter DataCleaner.complete (DataCleaner.drop_duplicates rows)) as ->.
  { unfold DataCleaner.drop_duplicates at 1. apply first_seen_NoDup_id.
    - apply NoDup_fmap_filter, first_seen_NoDup.
    - intros x _. apply not_elem_of_empty. }
  rewrite list_filter_filter. apply list_filter_iff. intros r. tauto.
Qed.

Lemma clean_data_idempotent_witness :
  DataCleaner.clean_data (Frame [row "t1" (Some "agent_1") (Some "hi") None]) =
  Ok (Frame [row "t1" (Some "agent_1") (Some "hi") None]).
Proof.
  apply (clean_data_idempotent (Frame rows_to_clean)). reflexivity.
Defined.

(** X6. Cleaning keeps the rows in their order and loses no complete turn: of
    every (transcript_id, agent, message) that a row with a message and an
    agent has, the first row stays. *)
Theorem clean_data_keeps_complete_keys (rows : list FlatRecord) :
  ∃ out, DataCleaner.clean_data (Frame rows) = Ok (Frame out)
    ∧ out `sublist_of` rows
    ∧ (length out ≤ length rows)%nat
    ∧ ∀ r, r ∈ rows → DataCleaner.complete r →
        ∃ r', r' ∈ out
          ∧ DataCleaner.dup_key r' = DataCleaner.dup_key r
          ∧ head (filter (fun x => DataCleaner.dup_key x = DataCleaner.dup_key r)
                    rows) = Some r'.
Proof.
  eexists. split; [reflexivity|].
  assert (filter DataCleaner.complete (DataCleaner.drop_duplicates rows)
          `sublist_of` rows) as Hsub.
  { etrans; [apply sublist_filter | apply first_seen_sublist]. }
  split; [done|]. split; [by apply sublist_length|].
  intros r Hr Hc. by apply clean_data_class_head.
Qed.

(** ** DataPreprocessor.encode_categorical *)

Section index_of.
Context `{EqDecision A}.
Implicit Types (l : list A) (v : A).

Lemma index_of_lookup v l : v ∈ l → l !! index_of v l = Some v.
Proof.
  induction l as [|c l IH]; [by intros ?%elem_of_nil|].
  intros Hv. simpl. case_decide as Hc; [by subst|].
  apply elem_of_cons in Hv as [->|Hv]; [done | by apply IH].
Qed.

Lemma index_of_lt v l : v ∈ l → (index_of v l < length l)%nat.
Proof. intros Hv. eapply lookup_lt_Some, index_of_lookup, Hv. Qed.

Lemma index_of_NoDup v l i : NoDup l → l !! i = Some v → index_of v l = i.
Proof.
  intros Hnd Hi.
  assert (v ∈ l) as Hv by (apply list_elem_of_lookup; eauto).
  eapply NoDup_lookup; [exact Hnd | by apply index_of_lookup | done].
Qed.

Lemma index_of_inj v w l :
  v ∈ l → w ∈ l → index_of v l = index_of w l → v = w.
Proof.
  intros Hv%index_of_lookup Hw%index_of_lookup Heq.
  rewrite Heq in Hv. congruence.
Qed.

Lemma index_of_app_l v l1 l2 : v ∈ l1 → index_of v (l1 ++ l2) = index_of v l1.
Proof.
  induction l1 as [|c l1 IH]; [by intros ?%elem_of_nil|].
  intros Hv. simpl. case_decide; [done|]. f_equal. apply IH.
  apply elem_of_cons in Hv as [->|Hv]; done.
Qed.

Lemma index_of_app_r v l1 l2 :
  v ∉ l1 → index_of v (l1 ++ l2) = (length l1 + index_of v l2)%nat.
Proof.
  induction l1 as [|c l1 IH]; [done|].
  intros [Hc Hv]%not_elem_of_cons. simpl.
  rewrite decide_False by done. by rewrite IH.
Qed.
End index_of.

Lemma index_of_fmap_Some (v : string) (l : list string) :
  index_of (Some v) (Some <$> l) = index_of v l.
Proof.
  induction l as [|c l IH]; [done|]. rewrite fmap_cons. simpl.
  destruct (decide (c = v)) as [->|Hne].
  - by rewrite decide_True.
  - rewrite decide_False by congruence. by rewrite IH.
Qed.

Lemma sorted_strings_elem_of (col : list (option string)) (v : string) :
  v ∈ merge_sort String.le (unique (omap id col)) ↔ Some v ∈ col.
Proof.
  rewrite merge_sort_Permutation, unique_elem_of, list_elem_of_omap. split.
  - by intros ([w|] & Hw & [= ->]).
  - intros Hv. by exists (Some v).
Qed.

Lemma sorted_strings_NoDup (col : list (option string)) :
  NoDup (merge_sort String.le (unique (omap id col))).
Proof. rewrite merge_sort_Permutation. apply unique_NoDup. Qed.

Lemma classes_elem_of (col : list (option string)) (c : option string) :
  c ∈ classes col ↔ c ∈ col.
Proof.
  unfold classes. rewrite elem_of_app, list_elem_of_fmap. destruct c as [v|].
  - split.
    + intros [(w & [= <-] & Hw)|Hn]; [by apply sorted_strings_elem_of|].
      case_decide; [by apply list_elem_of_singleton in Hn | by apply elem_of_nil in Hn].
    + intros Hv. left. exists v. by rewrite sorted_strings_elem_of.
  - split.
    + intros [(w & [=] & _)|Hn]. case_decide; [done | by apply elem_of_nil in Hn].
    + intros Hn. right. rewrite decide_True by done. by left.
Qed.

Lemma classes_NoDup (col : list (option string)) : NoDup (classes col).
Proof.
  unfold classes. apply NoDup_app. split; [|split].
  - apply (NoDup_fmap_2 _), sorted_strings_NoDup.
  - intros c (w & -> & _)%list_elem_of_fmap Hn.
    case_decide; [by apply list_elem_of_singleton in Hn | by apply elem_of_nil in Hn].
  - case_decide; [apply NoDup_singleton | apply NoDup_nil_2].
Qed.

(** X7. The codes of a column: one code per row, equal for two rows exactly
    when their cells are equal, and filling the numbers below the number of
    classes, which is the number of distinct cells of the column. *)
Theorem encode_categorical_codes (rows : list FlatRecord) (column : text_column) :
  ∃ codes,
    encode_categorical (Frame rows) column = Ok codes
    ∧ length codes = length rows
    ∧ length (classes (column_cell column <$> rows)) =
      length (unique (column_cell column <$> rows))
    ∧ (∀ i j ri rj, rows !! i = Some ri → rows !! j = Some rj →
         (codes !! i = codes !! j ↔
          column_cell column ri = column_cell column rj))
    ∧ (∀ k, k ∈ codes ↔
            (k < length (classes (column_cell column <$> rows)))%nat).
Proof.
  eexists. split; [reflexivity|]. unfold fit_transform.
  set (col := column_cell column <$> rows).
  split; [by rewrite length_fmap; unfold col; rewrite length_fmap|].
  split.
  { apply Permutation_length, NoDup_Permutation;
      [apply classes_NoDup | apply unique_NoDup|].
    intros c. by rewrite classes_elem_of, unique_elem_of. }
  split.
  - intros i j ri rj Hi Hj.
    assert (col !! i = Some (column_cell column ri)) as Hci
      by (unfold col; by rewrite list_lookup_fmap, Hi).
    assert (col !! j = Some (column_cell column rj)) as Hcj
      by (unfold col; by rewrite list_lookup_fmap, Hj).
    rewrite !list_lookup_fmap, Hci, Hcj. simpl. split.
    + intros [= Heq]. eapply index_of_inj; [| |exact Heq];
        apply classes_elem_of, list_elem_of_lookup; eauto.
    + by intros ->.
  - intros k. rewrite list_elem_of_fmap. split.
    + intros (c & -> & Hc). by apply index_of_lt, classes_elem_of.
    + intros Hk. destruct (lookup_lt_is_Some_2 _ _ Hk) as [c Hc].
      exists c. split.
      * symmetry. by apply index_of_NoDup; [apply classes_NoDup|].
      * apply classes_elem_of, list_elem_of_lookup. eauto.
Qed.

Lemma StronglySorted_lookup_le {A} (R : relation A) (l : list A) i j a b :
  StronglySorted R l → (i < j)%nat →
  l !! i = Some a → l !! j = Some b → R a b.
Proof.
  intros Hs. revert i j. induction Hs as [|x l Hs IH Hx]; intros i j Hij Hi Hj.
  - by rewrite lookup_nil in Hi.
  - destruct j as [|j]; [lia|]. simpl in Hj. destruct i as [|i].
    + simpl in Hi. injection Hi as <-.
      eapply Forall_forall; [exact Hx|]. apply list_elem_of_lookup. eauto.
    + simpl in Hi. apply (IH i j); [lia | done | done].
Qed.

Lemma sorted_index_le (l : list string) (v w : string) :
  StronglySorted String.le l → v ∈ l → w ∈ l →
  (String.le v w ↔ (index_of v l ≤ index_of w l)%nat).
Proof.
  intros Hs Hv Hw.
  pose proof (index_of_lookup v l Hv) as Hiv.
  pose proof (index_of_lookup w l Hw) as Hiw.
  split.
  - intros Hle. destruct (decide (index_of v l ≤ index_of w l)%nat) as [|Hgt];
      [done|].
    assert (String.le w v) as Hle'
      by (eapply (StronglySorted_lookup_le _ l (index_of w l) (index_of v l));
          [done | lia | done | done]).
    assert (v = w) as -> by (by apply (anti_symm String.le)). lia.
  - intros Hle. destruct (decide (index_of v l = index_of w l)) as [Heq|Hne].
    + rewrite Heq in Hiv. assert (v = w) as -> by congruence. done.
    + eapply (StronglySorted_lookup_le _ l (index_of v l) (index_of w l));
        [done | lia | done | done].
Qed.

Lemma class_index_Some (col : list (option string)) (v : string) :
  Some v ∈ col →
  index_of (Some v) (classes col) =
  index_of v (merge_sort String.le (unique (omap id col))).
Proof.
  intros Hv. unfold classes. rewrite index_of_app_l.
  - apply index_of_fmap_Some.
  - apply list_elem_of_fmap. exists v. by rewrite sorted_strings_elem_of.
Qed.

Lemma class_index_None (col : list (option string)) :
  None ∈ col →
  index_of None (classes col) =
  length (merge_sort String.le (unique (omap id col))).
Proof.
  intros Hn. unfold classes. rewrite index_of_app_r.
  - rewrite decide_True by done. simpl. rewrite length_fmap. lia.
  - by intros (w & [=] & _)%list_elem_of_fmap.
Qed.

Lemma fit_transform_lookup (rows : list FlatRecord) (column : text_column) i r :
  rows !! i = Some r →
  fit_transform (column_cell column <$> rows) !! i =
  Some (index_of (column_cell column r) (classes (column_cell column <$> rows))).
Proof. intros Hr. unfold fit_transform. by rewrite !list_lookup_fmap, Hr. Qed.

(** X8. The codes follow the order of the strings: of two cells that are
    strings, the smaller string has the smaller code; a null cell has the
    greatest code of the column. *)
Theorem encode_categorical_sorted (rows : list FlatRecord)
    (column : text_column) (codes : list nat) :
  encode_categorical (Frame rows) column = Ok codes →
  (∀ i j ri rj v w ci cj,
     rows !! i = Some ri → rows !! j = Some rj →
     column_cell column ri = Some v → column_cell column rj = Some w →
     codes !! i = Some ci → codes !! j = Some cj →
     (String.le v w ↔ (ci ≤ cj)%nat))
  ∧ (∀ i ri ci, rows !! i = Some ri → column_cell column ri = None →
       codes !! i = Some ci → ∀ c, c ∈ codes → (c ≤ ci)%nat).
Proof.
  intros [= <-].
  assert (∀ i r, rows !! i = Some r →
            column_cell column r ∈ column_cell column <$> rows) as Hin.
  { intros i r Hr. apply list_elem_of_fmap. exists r. split; [done|].
    apply list_elem_of_lookup. eauto. }
  split.
  - intros i j ri rj v w ci cj Hi Hj Hv Hw.
    rewrite (fit_transform_lookup rows column i ri Hi).
    rewrite (fit_transform_lookup rows column j rj Hj).
    rewrite Hv, Hw. intros [= <-] [= <-].
    pose proof (Hin i ri Hi) as Hvi. pose proof (Hin j rj Hj) as Hwj.
    rewrite Hv in Hvi. rewrite Hw in Hwj.
    rewrite !class_index_Some by done.
    apply sorted_index_le.
    + apply StronglySorted_merge_sort; apply _.
    + by apply sorted_strings_elem_of.
    + by apply sorted_strings_elem_of.
  - intros i ri ci Hi Hn.
    rewrite (fit_transform_lookup rows column i ri Hi), Hn. intros [= <-].
    pose proof (Hin i ri Hi) as Hnone. rewrite Hn in Hnone.
    rewrite class_index_None by done.
    unfold fit_transform.
    intros c (x & -> & Hx)%list_elem_of_fmap. destruct x as [v|].
    + rewrite class_index_Some by done.
      apply Nat.lt_le_incl, index_of_lt. by apply sorted_strings_elem_of.
    + by rewrite class_index_None.
Qed.

Lemma encode_categorical_sorted_witness :
  encode_categorical (Frame rows_to_encode) Col_sentiment = Ok [1; 2; 0; 1]
  ∧ (String.le "Curious" "Positive" ↔ (0 ≤ 1)%nat).
Proof.
  split; [reflexivity|].
  exact (proj1 (encode_categorical_sorted rows_to_encode Col_sentiment
                  [1; 2; 0; 1] eq_refl)
           2 0 _ _ "Curious" "Positive" 0 1
           eq_refl eq_refl eq_refl eq_refl eq_refl eq_refl).
Defined.

(** X9. The table of classes, and with it the code of every value, depends on
    the cells that occur in the column alone, not on their order or number. *)
Theorem classes_order_independent (col1 col2 : list (option string)) :
  (∀ c, c ∈ col1 ↔ c ∈ col2) →
  classes col1 = classes col2
  ∧ ∀ c, index_of c (classes col1) = index_of c (classes col2).
Proof.
  intros Hsame.
  assert (classes col1 = classes col2) as Heq; [|by rewrite Heq].
  unfold classes. f_equal.
  - f_equal. apply (StronglySorted_unique String.le).
    + apply StronglySorted_merge_sort; apply _.
    + apply StronglySorted_merge_sort; apply _.
    + apply NoDup_Permutation; [apply sorted_strings_NoDup..|].
      intros v. by rewrite !sorted_strings_elem_of.
  - destruct (decide (None ∈ col1)) as [H1|H1].
    + by rewrite decide_True by (by apply Hsame).
    + by rewrite decide_False by (by rewrite <-Hsame).
Qed.

Lemma classes_order_independent_witness :
  classes [Some "b"; None; Some "a"; Some "b"] = classes [Some "a"; Some "b"; None].
Proof.
  apply (classes_order_independent [Some "b"; None; Some "a"; Some "b"]
           [Some "a"; Some "b"; None]).
  intros c. rewrite !elem_of_cons, !elem_of_nil. tauto.
Defined.

(** ** DataPreprocessor.transform_data and the whole pipeline *)

Lemma transform_data_run (env : TextEnv) (rows : list FlatRecord)
    (log : list event) :
  ∃ out,
    transform_data env (Frame rows) log =
      (Ok (Frame out), log ++ mjoin ((fun _ => call_events) <$> rows))
    ∧ out = (fun r => fst (with_processed env r [])) <$> rows.
Proof.
  unfold transform_data, apply_text_preprocessing, mbind, traced_bind.
  rewrite traced_map_with_processed. by eexists.
Qed.

(** X10. [transform_data] keeps every row, in order and with its columns as
    they were, and puts the normalized message next to it, the empty string
    for a null message; it calls [preprocess_text] once per row. On a frame
    without columns it raises [KeyError]. *)
Theorem transform_data_adds_column (env : TextEnv) (rows : list FlatRecord)
    (log : list event) :
  (∃ out,
     transform_data env (Frame rows) log =
       (Ok (Frame out), log ++ mjoin ((fun _ => call_events) <$> rows))
     ∧ flat <$> out = rows
     ∧ Forall (fun r =>
                 processed_message r =
                   fst (preprocess_text env (cell_value (message (flat r))) [])
                 ∧ (message (flat r) = None → processed_message r = ""))
              out)
  ∧ transform_data env NoColumns log = (Raise KeyError, log).
Proof.
  split; [|done].
  destruct (transform_data_run env rows log) as (out & Hrun & ->).
  eexists. split; [exact Hrun|]. clear Hrun. split.
  - induction rows as [|r rows IH]; [done|].
    rewrite !fmap_cons, IH. by rewrite with_processed_run.
  - apply Forall_forall. intros r (r0 & -> & _)%list_elem_of_fmap.
    rewrite with_processed_run. simpl. split; [done|].
    intros ->. by rewrite preprocess_text_run.
Qed.

(** X11. The table [_load_data] builds from a store that follows the data
    model and has a turn: the complete rows that survive the duplicate
    removal, in the order of the store, each with its normalized message; no
    two rows with the same (transcript_id, agent, message), none with a null
    message or agent; one lemmatizer construction per row of the table. *)
Theorem load_data_table (env : TextEnv) (fs : DataLoader.filesystem)
    (path : string) (v : pyobj) (rows : list FlatRecord) (log : list event) :
  fs path = DataLoader.Json v → typed_store v = true →
  DataLoader.flatten v = Ok rows → rows ≠ [] →
  ∃ out log',
    _load_data env fs path log = (Ok (Frame out), log')
    ∧ flat <$> out = filter DataCleaner.complete (DataCleaner.drop_duplicates rows)
    ∧ flat <$> out `sublist_of` rows
    ∧ NoDup (DataCleaner.dup_key <$> (flat <$> out))
    ∧ Forall (fun r => message (flat r) ≠ None ∧ agent (flat r) ≠ None
                       ∧ processed_message r =
                         fst (preprocess_text env
                                (cell_value (message (flat r))) []))
             out
    ∧ count_event NewLemmatizer log' =
      (count_event NewLemmatizer log + length out)%nat.
Proof.
  intros Hfs _ Hflat Hne. unfold _load_data, DataLoader.path_exists,
    DataLoader.to_dataframe, DataLoader.load_data.
  rewrite Hfs. simpl. rewrite Hflat. simpl.
  assert (pd_DataFrame rows = Frame rows) as -> by (by destruct rows).
  simpl.
  destruct (transform_data_run env
              (filter DataCleaner.complete (DataCleaner.drop_duplicates rows))
              log) as (out & Hrun & Hdef).
  assert (flat <$> out =
          filter DataCleaner.complete (DataCleaner.drop_duplicates rows)) as Hout.
  { rewrite Hdef. generalize (filter DataCleaner.complete
                                (DataCleaner.drop_duplicates rows)).
    intros l. induction l as [|r l IH]; [done|].
    rewrite !fmap_cons, IH. by rewrite with_processed_run. }
  assert (Forall (fun r => processed_message r =
                   fst (preprocess_text env (cell_value (message (flat r))) []))
                 out) as Hall.
  { rewrite Hdef. apply Forall_forall.
    intros r (r0 & -> & _)%list_elem_of_fmap. by rewrite with_processed_run. }
  exists out. eexists. split; [exact Hrun|]. split; [done|].
  rewrite Hout. split; [|split; [|split]].
  - etrans; [apply sublist_filter | apply first_seen_sublist].
  - apply NoDup_fmap_filter, first_seen_NoDup.
  - apply Forall_forall. intros r Hr.
    assert (flat r ∈ flat <$> out) as Hin
      by (apply list_elem_of_fmap; eauto).
    rewrite Hout in Hin. apply list_elem_of_filter in Hin as [[Hm Ha] _].
    apply (proj1 (Forall_forall _ _) Hall) in Hr. done.
  - unfold count_event. rewrite filter_app, length_app.
    fold (count_event NewLemmatizer
            (mjoin ((fun _ => call_events)
                    <$> filter DataCleaner.complete
                          (DataCleaner.drop_duplicates rows)))).
    rewrite count_event_calls by done.
    by rewrite <-Hout, length_fmap.
Qed.

Lemma load_data_table_witness :
  ∃ out log',
    _load_data toy_env (single_file store_two_transcripts) "data.json" [] =
      (Ok (Frame out), log')
    ∧ processed_message <$> out = ["hello there"; "good day"; "bye"].
Proof.
  destruct (load_data_table toy_env (single_file store_two_transcripts)
              "data.json" store_two_transcripts
              [row "t1" (Some "agent_1") (Some "Hello there") (Some "Positive");
               row "t1" (Some "agent_2") (Some "Good day") None;
               row "t1" (Some "agent_1") (Some "Hello there") (Some "Negative");
               {| transcript_id := "t1"; article_url := Some "http://a";
                  message := None; agent := Some "agent_2"; sentiment := None;
                  knowledge_source := PyNone; turn_rating := None |};
               {| transcript_id := "t2"; article_url := None;
                  message := Some "Bye"; agent := Some "agent_2";
                  sentiment := Some "Sad"; knowledge_source := PyDict [];
                  turn_rating := Some "Good" |}] []
              eq_refl eq_refl eq_refl ltac:(discriminate))
    as (out & log' & Hrun & _).
  exists out, log'. split; [exact Hrun|].
  vm_compute in Hrun. by injection Hrun as <- _.
Defined.

(** X12. The table of the exploratory script is the table of the analyzer:
    [load_and_preprocess_data] and [_load_data] give the same result and
    load the resources the same number of times, for every file system; for a
    missing file both raise [FileNotFoundError] (the one of [open], the other
    its own; the text of an exception is not modelled). *)
Theorem eda_table_is_analyzer_table (env : TextEnv)
    (fs : DataLoader.filesystem) (path : string) (log : list event) :
  Eda.load_and_preprocess_data env fs path log = _load_data env fs path log
  ∧ (fs path = DataLoader.NoFile →
     Eda.load_and_preprocess_data env fs path log =
     (Raise FileNotFoundError, log)).
Proof.
  unfold Eda.load_and_preprocess_data, _load_data, DataLoader.path_exists,
    DataLoader.to_dataframe, DataLoader.load_data.
  split; [by destruct (fs path) | by intros ->].
Qed.

(** ** TranscriptAnalyzer.analyze_transcript *)

Lemma mapM_result_cases {A B} (f : A → result B) (l : list A) e :
  Forall (fun x => (∃ y, f x = Ok y) ∨ f x = Raise e) l →
  (∃ ys, mapM f l = Ok ys) ∨ mapM f l = Raise e.
Proof.
  induction 1 as [|x l [[y Hy]|Hx] _ [[ys Hys]|Hl]]; simpl.
  - left. by eexists.
  - left. rewrite Hy. simpl. rewrite Hys. by eexists.
  - right. rewrite Hy. simpl. by rewrite Hl.
  - right. by rewrite Hx.
  - right. by rewrite Hx.
Qed.

Lemma sentiments_by_agent_cases (tdf : list NormalizedRecord) :
  (∃ overall, sentiments_by_agent tdf = Ok overall)
  ∨ sentiments_by_agent tdf = Raise IndexError.
Proof.
  unfold sentiments_by_agent.
  destruct (mapM_result_cases
    (fun a => s ← agent_overall_sentiment tdf a; mret (a, s))
    (unique (agent ∘ flat <$> tdf)) IndexError) as [[ys ->]| ->].
  - apply Forall_forall. intros x _.
    destruct (agent_overall_sentiment_cases tdf x) as [[s ->]| ->];
      [left; by eexists | by right].
  - left. by eexists.
  - by right.
Qed.

Lemma analyze_transcript_no_rows (summarizer : Summarizer)
    (rows : list NormalizedRecord) (tid : string) :
  filter (fun r => transcript_id (flat r) = tid) rows = [] →
  analyze_transcript summarizer (Frame rows) tid =
  Ok (ErrorDict ("Transcript ID '" +:+ tid +:+ "' not found.")).
Proof. intros Hf. unfold analyze_transcript. by rewrite Hf. Qed.

Lemma analyze_transcript_some_rows (summarizer : Summarizer)
    (rows : list NormalizedRecord) (tid error : string) :
  filter (fun r => transcript_id (flat r) = tid) rows ≠ [] →
  analyze_transcript summarizer (Frame rows) tid ≠ Ok (ErrorDict error).
Proof.
  intros Hf. unfold analyze_transcript.
  destruct (filter _ rows) as [|first rest]; [done|].
  destruct (sentiments_by_agent (first :: rest)); [|done].
  destruct (join_cells _); [|done].
  simpl. by destruct (summarizer _ _ _ _).
Qed.

Lemma analyze_transcript_Insights (summarizer : Summarizer)
    (rows : list NormalizedRecord) (tid : string) (a : TranscriptAnalysis) :
  analyze_transcript summarizer (Frame rows) tid = Ok (Insights a) →
  analysis_transcript_id a = tid
  ∧ ∃ first, head (filter (fun r => transcript_id (flat r) = tid) rows) =
             Some first
      ∧ possible_article_link a = article_url (flat first).
Proof.
  unfold analyze_transcript.
  destruct (filter _ rows) as [|first rest]; [done|].
  destruct (sentiments_by_agent (first :: rest)); [|done].
  destruct (join_cells _); [|done].
  simpl. destruct (summarizer _ _ _ _); [|done].
  intros [= <-]. split; [done|]. by exists first.
Qed.

Lemma no_matching_row (rows : list NormalizedRecord) (tid : string) :
  filter (fun r => transcript_id (flat r) = tid) rows = [] ↔
  ∀ r, r ∈ rows → transcript_id (flat r) ≠ tid.
Proof.
  split.
  - intros Hf r Hr Htid.
    assert (r ∈ filter (fun r => transcript_id (flat r) = tid) rows) as Hin
      by (by apply list_elem_of_filter).
    rewrite Hf in Hin. by apply elem_of_nil in Hin.
  - intros Hno.
    destruct (filter _ rows) as [|first rest] eqn:Hf; [done|]. exfalso.
    assert (first ∈ filter (fun r => transcript_id (flat r) = tid) rows)
      as [Htid Hin]%list_elem_of_filter by (rewrite Hf; by left).
    by apply (Hno first).
Qed.

(** X13. [analyze_transcript] returns the error dict, with the id in its
    text, exactly when no row of the table has the transcript id; the
    summarizer has no part in it. *)
Theorem analyze_transcript_not_found (summarizer : Summarizer)
    (rows : list NormalizedRecord) (tid : string) :
  (∀ r, r ∈ rows → transcript_id (flat r) ≠ tid) ↔
  ∃ error, analyze_transcript summarizer (Frame rows) tid = Ok (ErrorDict error)
    ∧ error = "Transcript ID '" +:+ tid +:+ "' not found.".
Proof.
  rewrite <-no_matching_row. split.
  - intros Hf. eexists. split; [by apply analyze_transcript_no_rows | done].
  - intros (error & Hrun & _).
    destruct (decide (filter (fun r => transcript_id (flat r) = tid) rows = []))
      as [|Hne]; [done|].
    by destruct (analyze_transcript_some_rows summarizer rows tid error Hne).
Qed.

(** X14. The summarizer is called on the messages of the transcript, joined
    by single blanks in the order of the rows, with max_length 150,
    min_length 30 and no sampling, and on nothing else: two summarizers that
    agree on that call give the same analysis. *)
Theorem analyze_transcript_one_call (s1 s2 : Summarizer)
    (rows : list NormalizedRecord) (tid : string) :
  let tdf := filter (fun r => transcript_id (flat r) = tid) rows in
  Forall (fun r => message (flat r) ≠ None) tdf →
  s1 (full_text tdf) 150%Z 30%Z false = s2 (full_text tdf) 150%Z 30%Z false →
  analyze_transcript s1 (Frame rows) tid = analyze_transcript s2 (Frame rows) tid.
Proof.
  intros tdf Hmsg Hcall. unfold analyze_transcript. fold tdf.
  pose proof (join_cells_Ok tdf Hmsg) as Hjoin.
  destruct tdf as [|first rest]; [done|].
  destruct (sentiments_by_agent (first :: rest)); [|done].
  rewrite Hjoin. simpl. by rewrite Hcall.
Qed.

Lemma analyze_transcript_one_call_witness :
  analyze_transcript echo_summarizer (Frame rows_scenario) "t1" =
  analyze_transcript
    (fun text _ _ _ =>
       if decide (text = "one two three four five")
       then Ok ["Summary: one two three four five"]
       else Raise TypeError)
    (Frame rows_scenario) "t1".
Proof.
  apply (analyze_transcript_one_call echo_summarizer _ rows_scenario "t1").
  - decide_by_computation.
  - reflexivity.
Defined.

(** X15. The fields of a returned analysis: the id asked for, the article_url
    of the first matching row, and the first item of what the summarizer
    returned. *)
Theorem analyze_transcript_fields (summarizer : Summarizer)
    (rows : list NormalizedRecord) (tid : string) (a : TranscriptAnalysis) :
  analyze_transcript summarizer (Frame rows) tid = Ok (Insights a) →
  let tdf := filter (fun r => transcript_id (flat r) = tid) rows in
  analysis_transcript_id a = tid
  ∧ possible_article_link a = head tdf ≫= article_url ∘ flat
  ∧ dom (message_counts a) = {[ "agent_1"; "agent_2" ]}
  ∧ dom (overall_sentiments a) = {[ "agent_1"; "agent_2" ]}
  ∧ ∃ summary_list,
      summarizer (full_text tdf) 150%Z 30%Z false = Ok summary_list
      ∧ conversation_summary a =
        default "Could not generate summary." (head summary_list).
Proof.
  intros Hrun tdf. revert Hrun. unfold analyze_transcript. fold tdf.
  destruct tdf as [|first rest] eqn:Htdf; [done|].
  destruct (sentiments_by_agent (first :: rest)) as [overall|]; [|done].
  destruct (join_cells (message ∘ flat <$> first :: rest)) as [text|] eqn:Hjoin;
    [|done].
  assert (text = full_text (first :: rest)) as ->.
  { clear Htdf. revert Hjoin. unfold join_cells, full_text.
    generalize (first :: rest). intros l.
    destruct (mapM _ (message ∘ flat <$> l)) as [items|] eqn:Hitems; [|done].
    intros [= <-]. f_equal.
    revert items Hitems. induction l as [|r l IH]; intros items.
    - by intros [= <-].
    - rewrite fmap_cons. simpl. destruct (message (flat r)); simpl; [|done].
      destruct (mapM _ (message ∘ flat <$> l)) as [items'|]; simpl; [|done].
      intros [= <-]. f_equal. by apply IH. }
  unfold mbind at 1 2; simpl.
  destruct (summarizer _ _ _ _) as [summary_list|] eqn:Hsum; [|done].
  intros [= <-]. simpl.
  split; [done|]. split; [done|].
  split; [by rewrite dom_insert_L, dom_singleton_L|].
  split; [by rewrite dom_insert_L, dom_singleton_L|].
  exists summary_list. split; [done|]. by destruct summary_list.
Qed.

Lemma analyze_transcript_fields_witness :
  ∃ a, analyze_transcript echo_summarizer (Frame rows_scenario) "t1" =
       Ok (Insights a)
    ∧ analysis_transcript_id a = "t1"
    ∧ possible_article_link a = Some "http://a".
Proof.
  eexists. split; [vm_compute; reflexivity|].
  split;
    eapply (analyze_transcript_fields echo_summarizer rows_scenario "t1");
    vm_compute; reflexivity.
Defined.

Lemma overall_sentiments_two_agents_witness :
  ∃ a, analyze_transcript echo_summarizer (Frame rows_scenario) "t1" =
       Ok (Insights a)
    ∧ dom (overall_sentiments a) = {[ "agent_1"; "agent_2" ]}.
Proof.
  destruct (overall_sentiments_two_agents echo_summarizer rows_scenario "t1"
              ["Summary: one two three four five"])
    as (a & Hrun & Hdom & _).
  - discriminate.
  - decide_by_computation.
  - reflexivity.
  - exists a. split; [exact Hrun | exact Hdom].
Defined.

Lemma analyze_transcript_null_sentiments_witness :
  analyze_transcript failing_summarizer
    (Frame [normalized (row "t1" (Some "agent_1") (Some "hi") None);
            normalized (row "t1" (Some "agent_2") (Some "yo") (Some "Sad"))])
    "t1" = Raise IndexError.
Proof.
  apply (analyze_transcript_null_sentiments failing_summarizer _ "t1" "agent_1").
  - by left.
  - reflexivity.
Defined.

(** X18. On a table whose rows all have a message, as every table of
    [_load_data] has, an exception that leaves [analyze_transcript] is the
    [IndexError] of an agent without sentiment or the exception of the
    summarizer; the [IndexError] comes before the summarizer is called. *)
Theorem analyze_transcript_exceptions (summarizer : Summarizer)
    (rows : list NormalizedRecord) (tid : string) (e : exn) :
  let tdf := filter (fun r => transcript_id (flat r) = tid) rows in
  Forall (fun r => message (flat r) ≠ None) rows →
  analyze_transcript summarizer (Frame rows) tid = Raise e →
  (e = IndexError ∧ sentiments_by_agent tdf = Raise IndexError)
  ∨ (summarizer (full_text tdf) 150%Z 30%Z false = Raise e
     ∧ ∃ overall, sentiments_by_agent tdf = Ok overall).
Proof.
  intros tdf Hmsg. unfold analyze_transcript. fold tdf.
  assert (Forall (fun r => message (flat r) ≠ None) tdf) as Htdf.
  { apply Forall_forall. intros r [_ Hr]%list_elem_of_filter.
    by apply (proj1 (Forall_forall _ _) Hmsg). }
  pose proof (join_cells_Ok tdf Htdf) as Hjoin.
  destruct tdf as [|first rest]; [done|].
  destruct (sentiments_by_agent_cases (first :: rest)) as [[overall ->]| ->].
  - rewrite Hjoin. simpl.
    destruct (summarizer _ _ _ _) as [sl|e'] eqn:Hsum; [done|].
    intros [= <-]. right. split; [done | by eexists].
  - intros [= <-]. by left.
Qed.

Lemma analyze_transcript_exceptions_witness :
  (RuntimeError "backend unavailable" = IndexError
   ∧ sentiments_by_agent
       (filter (fun r => transcript_id (flat r) = "t1") rows_scenario) =
     Raise IndexError)
  ∨ (failing_summarizer
       (full_text (filter (fun r => transcript_id (flat r) = "t1")
                     rows_scenario)) 150%Z 30%Z false =
     Raise (RuntimeError "backend unavailable")
     ∧ ∃ overall,
         sentiments_by_agent
           (filter (fun r => transcript_id (flat r) = "t1") rows_scenario) =
         Ok overall).
Proof.
  apply (analyze_transcript_exceptions failing_summarizer rows_scenario "t1").
  - decide_by_computation.
  - vm_compute. reflexivity.
Defined.

(** ** TranscriptAnalyzer._load_data: the exceptions *)

Lemma mapM_result_Raise_inv {A B} (f : A → result B) (l : list A) e :
  mapM f l = Raise e → ∃ x, x ∈ l ∧ f x = Raise e.
Proof.
  induction l as [|x l IH]; simpl; [done|].
  destruct (f x) as [y|e'] eqn:Hx; simpl.
  - destruct (mapM f l) as [ys|e'']; simpl; [done|].
    intros [= ->]. destruct IH as (x' & Hin & Hx'); [done|].
    exists x'. split; [by right | done].
  - intros [= ->]. exists x. split; [by left | done].
Qed.

Lemma turn_record_Raise (tid : string) (url turn : pyobj) (e : exn) :
  DataLoader.turn_record tid url turn = Raise e → e = AttributeError.
Proof.
  unfold DataLoader.turn_record.
  destruct turn; simpl; first [by intros [= <-] | done].
Qed.

Lemma transcript_records_Raise (entry : string * pyobj) (e : exn) :
  DataLoader.transcript_records entry = Raise e →
  e = AttributeError ∨ e = TypeError.
Proof.
  destruct entry as [tid data]. unfold DataLoader.transcript_records.
  destruct data as [| | | |d]; simpl; try (intros [= <-]; by left).
  destruct (default (PyList []) (dict_get d "content")) as [|s|n|l|d'];
    simpl; try (intros [= <-]; by right).
  all: intros (x & _ & Hx)%mapM_result_Raise_inv;
       left; by apply turn_record_Raise in Hx.
Qed.

Lemma flatten_Raise (v : pyobj) (e : exn) :
  DataLoader.flatten v = Raise e → e = AttributeError ∨ e = TypeError.
Proof.
  unfold DataLoader.flatten.
  destruct v as [| | | |entries]; simpl; try (intros [= <-]; by left).
  destruct (mapM DataLoader.transcript_records entries) as [per|e'] eqn:Hper;
    simpl; [done|].
  intros [= ->]. apply mapM_result_Raise_inv in Hper as (entry & _ & Hentry).
  by apply transcript_records_Raise in Hentry.
Qed.

(** X19. The exceptions of [_load_data], for a path in one of the states of
    the file model and a store whose text fields are strings or null: it
    raises [FileNotFoundError] exactly for a missing file, the error of
    [open] or of [json.load] exactly for a directory, an unreadable file, a
    file that is no text or no JSON document, the [AttributeError] or
    [TypeError] of the loops of [to_dataframe] exactly when they raise it,
    [KeyError] (from [dropna]) exactly when the store has no turn at all, and
    nothing else. No resource is constructed before the failure. *)
Theorem load_data_exceptions (env : TextEnv) (fs : DataLoader.filesystem)
    (path : string) (log : list event) :
  (∀ v, fs path = DataLoader.Json v → typed_store v = true) →
  ∀ e,
    ((∃ log', _load_data env fs path log = (Raise e, log')) ↔
     match e with
     | FileNotFoundError => fs path = DataLoader.NoFile
     | IsADirectoryError => fs path = DataLoader.Directory
     | PermissionError => fs path = DataLoader.Unreadable
     | UnicodeDecodeError => fs path = DataLoader.NotText
     | JSONDecodeError => fs path = DataLoader.NotJson
     | KeyError =>
         ∃ v, fs path = DataLoader.Json v ∧ DataLoader.flatten v = Ok []
     | AttributeError | TypeError =>
         ∃ v, fs path = DataLoader.Json v ∧ DataLoader.flatten v = Raise e
     | IndexError | RuntimeError _ => False
     end)
    ∧ ∀ log', _load_data env fs path log = (Raise e, log') → log' = log.
Proof.
  intros _ e.
  unfold _load_data, DataLoader.path_exists, DataLoader.to_dataframe,
    DataLoader.load_data.
  destruct (fs path) as [| |v| | |] eqn:Hfs; simpl.
  1, 2, 4, 5, 6:
    split; [|by intros log' [= _ <-]];
    split; [by intros (log' & [= <- _]) |];
    destruct e;
      first [ by intros [=] | by intros (? & [=] & _) | done
            | intros _; by exists log ].
  destruct (DataLoader.flatten v) as [rows|e'] eqn:Hflat; simpl.
  - destruct rows as [|r rows].
    + simpl. split; [|by intros log' [= _ <-]]. split.
      * intros (log' & [= <- _]). by exists v.
      * destruct e;
          first [ by intros [=] | done
                | intros (v' & [= <-] & Hflat'); congruence
                | intros _; by exists log ].
    + change (pd_DataFrame (r :: rows)) with (Frame (r :: rows)).
      remember (r :: rows) as rows0 eqn:Hrows0. simpl.
      unfold mbind, traced_bind. rewrite traced_map_with_processed.
      split; [|done]. split; [by intros (log' & ?)|].
      destruct e;
        first [ by intros [=] | done
              | intros (v' & [= <-] & Hflat'); congruence ].
  - split; [|by intros log' [= _ <-]]. split.
    + intros (log' & [= <- _]).
      destruct (flatten_Raise v e' Hflat) as [-> | ->]; by exists v.
    + destruct e;
        first [ by intros [=] | done
              | intros (v' & [= <-] & Hflat'); rewrite Hflat in Hflat';
                first [ discriminate Hflat'
                      | injection Hflat' as ->; by exists log ] ].
Qed.

Lemma load_data_exceptions_witness :
  (∃ log', _load_data toy_env (single_file (PyDict [("t1", PyDict [])]))
             "data.json" [] = (Raise KeyError, log'))
  ∧ ¬ ∃ log', _load_data toy_env (single_file (PyDict [("t1", PyDict [])]))
                "data.json" [] = (Raise IndexError, log').
Proof.
  assert (∀ v, single_file (PyDict [("t1", PyDict [])]) "data.json" =
               DataLoader.Json v → typed_store v = true) as Htyped
    by (by intros v [= <-]).
  split.
  - apply (proj2 (proj1 (load_data_exceptions toy_env
                    (single_file (PyDict [("t1", PyDict [])])) "data.json" []
                    Htyped KeyError))).
    by eexists.
  - exact (proj1 (proj1 (load_data_exceptions toy_env
                    (single_file (PyDict [("t1", PyDict [])])) "data.json" []
                    Htyped IndexError))).
Defined.

(** ** main.py: the analyzer object and the start of the service *)




(** ** main.py: the endpoints *)

Lemma dict_total_insert (counts : gmap string nat) (k : string) (n : nat) :
  counts !! k = None →
  dict_total (<[k:=n]> counts) = (n + dict_total counts)%nat.
Proof.
  intros Hk. unfold dict_total.
  rewrite map_fold_insert_L; [done| |done].
  intros. lia.
Qed.

Lemma dict_total_value_counts (col : list (option string)) :
  dict_total (value_counts col) = length (omap id col).
Proof.
  induction col as [|[v|] col IH]; [done| |done].
  change (dict_total (<[v := S (default 0 (value_counts col !! v))]>
                        (value_counts col)) = S (length (omap id col))).
  rewrite <-IH. generalize (value_counts col). intros counts.
  rewrite <-insert_delete_eq, dict_total_insert by apply lookup_delete_eq.
  destruct (counts !! v) as [n|] eqn:Hv; simpl.
  - rewrite <-(insert_delete_id counts v n Hv) at 2.
    by rewrite dict_total_insert by apply lookup_delete_eq.
  - by rewrite delete_id.
Qed.

Lemma omap_id_length_le {A} (col : list (option A)) :
  (length (omap id col) ≤ length col)%nat.
Proof.
  induction col as [|[x|] col IH]; [done| |].
  - change (S (length (omap id col)) ≤ S (length col))%nat. lia.
  - change (length (omap id col) ≤ S (length col))%nat. lia.
Qed.

Lemma omap_id_length_full {A B} (f : A → option B) (l : list A) :
  Forall (fun x => f x ≠ None) l → length (omap id (f <$> l)) = length l.
Proof.
  induction 1 as [|x l Hx _ IH]; [done|].
  rewrite fmap_cons. destruct (f x); [|done].
  change (S (length (omap id (f <$> l))) = S (length l)). by rewrite IH.
Qed.

(** X21. A request whose key is not the configured one is refused by all
    three endpoints before anything else is looked at: 422 when the header
    is missing, 401 with the same detail otherwise, whether the analyzer is
    loaded or not; [/transform] does not touch the text resources. *)
Theorem wrong_key_refused (env : TextEnv) (API_KEY : string)
    (analyzer : option Api.Analyzer) (tid text : string)
    (x_api_key : option string) (log : list event) :
  x_api_key ≠ Some API_KEY →
  match x_api_key with
  | None =>
      Api.get_dataset_summary API_KEY analyzer x_api_key = Api.RequestInvalid
      ∧ Api.analyze_transcript_endpoint API_KEY analyzer tid x_api_key =
        Api.RequestInvalid
      ∧ Api.transform_text env API_KEY text x_api_key log =
        (Api.RequestInvalid, log)
  | Some _ =>
      Api.get_dataset_summary API_KEY analyzer x_api_key =
        Api.HttpError 401 "Invalid or missing API Key."
      ∧ Api.analyze_transcript_endpoint API_KEY analyzer tid x_api_key =
        Api.HttpError 401 "Invalid or missing API Key."
      ∧ Api.transform_text env API_KEY text x_api_key log =
        (Api.HttpError 401 "Invalid or missing API Key.", log)
  end.
Proof.
  intros Hkey.
  unfold Api.get_dataset_summary, Api.analyze_transcript_endpoint,
    Api.transform_text, Api.api_key_auth.
  destruct x_api_key as [key|]; [|done].
  by destruct (decide (key = API_KEY)) as [->|].
Qed.

Lemma wrong_key_refused_witness :
  Api.get_dataset_summary "AdityaSalagare" None (Some "invalid-key") =
    Api.HttpError 401 "Invalid or missing API Key."
  ∧ Api.analyze_transcript_endpoint "AdityaSalagare" None "t1"
      (Some "invalid-key") =
    Api.HttpError 401 "Invalid or missing API Key."
  ∧ Api.transform_text toy_env "AdityaSalagare" "This is a test sentence."
      (Some "invalid-key") [] =
    (Api.HttpError 401 "Invalid or missing API Key.", []).
Proof.
  apply (wrong_key_refused toy_env "AdityaSalagare" None "t1"
           "This is a test sentence." (Some "invalid-key") []).
  discriminate.
Defined.

(** X22. [GET /analyze-transcript/{id}] with the right key on a loaded
    analyzer answers 404, with the detail of the error dict, exactly when no
    row of the table has the id; it raises no other [HTTPException]. *)
Theorem analyze_endpoint_not_found (API_KEY : string) (an : Api.Analyzer)
    (rows : list NormalizedRecord) (tid : string) :
  Api.analyzer_df an = Frame rows →
  let answer :=
    Api.analyze_transcript_endpoint API_KEY (Some an) tid (Some API_KEY) in
  ((∀ r, r ∈ rows → transcript_id (flat r) ≠ tid) ↔
   answer = Api.HttpError 404 ("Transcript ID '" +:+ tid +:+ "' not found."))
  ∧ ∀ status detail, answer = Api.HttpError status detail → status = 404.
Proof.
  intros Hdf answer. subst answer.
  unfold Api.analyze_transcript_endpoint, Api.api_key_auth.
  rewrite decide_True by done. rewrite Hdf.
  rewrite <-no_matching_row.
  destruct (decide (filter (fun r => transcript_id (flat r) = tid) rows = []))
    as [Hnil|Hne].
  - rewrite (analyze_transcript_no_rows _ _ _ Hnil).
    split; [done|]. by intros status detail [= <- _].
  - pose proof (analyze_transcript_some_rows (Api.analyzer_summarizer an)
                  rows tid) as Hsome.
    destruct (analyze_transcript _ (Frame rows) tid) as [[error|a]|e].
    + by destruct (Hsome error Hne).
    + split; [split; [done|] | ]; by destruct (possible_article_link a).
    + split; [by split|done].
Qed.

Lemma analyze_endpoint_not_found_witness :
  ((∀ r, r ∈ rows_scenario → transcript_id (flat r) ≠ "t9") ↔
   Api.analyze_transcript_endpoint "AdityaSalagare"
     (Some {| Api.analyzer_df := Frame rows_scenario;
              Api.analyzer_summarizer := failing_summarizer |})
     "t9" (Some "AdityaSalagare") =
   Api.HttpError 404 "Transcript ID 't9' not found.")
  ∧ ∀ status detail,
      Api.analyze_transcript_endpoint "AdityaSalagare"
        (Some {| Api.analyzer_df := Frame rows_scenario;
                 Api.analyzer_summarizer := failing_summarizer |})
        "t9" (Some "AdityaSalagare") = Api.HttpError status detail →
      status = 404.
Proof.
  apply (analyze_endpoint_not_found "AdityaSalagare"
           {| Api.analyzer_df := Frame rows_scenario;
              Api.analyzer_summarizer := failing_summarizer |}
           rows_scenario "t9").
  reflexivity.
Defined.

(** X23. A 200 answer of [GET /analyze-transcript/{id}] carries the id asked
    for and, as its link, the article_url of the first row of the transcript,
    which is then a string: for a transcript whose first row has a null
    article_url no answer is a 200. *)
Theorem analyze_endpoint_ok (API_KEY : string)
    (analyzer : option Api.Analyzer) (tid : string)
    (x_api_key : option string) (a : TranscriptAnalysis) :
  Api.analyze_transcript_endpoint API_KEY analyzer tid x_api_key =
    Api.Http200 a →
  x_api_key = Some API_KEY
  ∧ analysis_transcript_id a = tid
  ∧ ∃ an rows first url,
      analyzer = Some an
      ∧ Api.analyzer_df an = Frame rows
      ∧ analyze_transcript (Api.analyzer_summarizer an) (Frame rows) tid =
        Ok (Insights a)
      ∧ head (filter (fun r => transcript_id (flat r) = tid) rows) = Some first
      ∧ article_url (flat first) = Some url
      ∧ possible_article_link a = Some url.
Proof.
  unfold Api.analyze_transcript_endpoint, Api.api_key_auth.
  destruct x_api_key as [key|]; [|done].
  destruct (decide (key = API_KEY)) as [->|]; [|done].
  destruct analyzer as [an|]; [|done].
  destruct (Api.analyzer_df an) as [|rows] eqn:Hdf; [done|].
  destruct (analyze_transcript _ (Frame rows) tid) as [[error|a']|e] eqn:Hrun;
    [done| |done].
  destruct (possible_article_link a') as [url|] eqn:Hurl; [|done].
  intros [= ->]. split; [done|].
  destruct (analyze_transcript_Insights _ _ _ _ Hrun)
    as (Hid & first & Hhead & Hlink).
  split; [done|]. exists an, rows, first, url.
  repeat split; try done. by rewrite <-Hlink.
Qed.

Lemma analyze_endpoint_ok_witness :
  ∃ a, Api.analyze_transcript_endpoint "AdityaSalagare"
         (Some {| Api.analyzer_df := Frame rows_scenario;
                  Api.analyzer_summarizer := echo_summarizer |})
         "t1" (Some "AdityaSalagare") = Api.Http200 a
    ∧ analysis_transcript_id a = "t1".
Proof.
  eexists. split; [vm_compute; reflexivity|].
  eapply (analyze_endpoint_ok "AdityaSalagare"
            (Some {| Api.analyzer_df := Frame rows_scenario;
                     Api.analyzer_summarizer := echo_summarizer |})
            "t1" (Some "AdityaSalagare")).
  vm_compute. reflexivity.
Defined.

(** X24. [POST /transform] with the right key answers 200 for every text: it
    echoes the text and returns the tokens of the lower-cased text that pass
    the filter, lemmatized and joined by blanks; every request constructs a
    lemmatizer and a stop-word set of its own. *)
Theorem transform_text_run (env : TextEnv) (API_KEY text : string)
    (log : list event) :
  Api.transform_text env API_KEY text (Some API_KEY) log =
  (Api.Http200 {|
     Api.original_text := text;
     Api.processed_text :=
       String.concat " "
         (lemmatize env <$>
          List.filter (keep_token (list_to_set (stopwords_english env)))
            (word_tokenize env (str_lower env text))) |},
   log ++ [NewLemmatizer; StopwordsWords; BuildStopSet]).
Proof.
  unfold Api.transform_text, Api.api_key_auth.
  rewrite decide_True by done.
  unfold mbind, traced_bind. by rewrite preprocess_text_run.
Qed.

(** X25. [GET /summary] with the right key on a loaded analyzer answers 200;
    total_messages is the number of rows, total_transcripts is at most that
    and at least one when there is a row, no distribution counts more than
    the rows, and the counts of messages_per_agent add up to total_messages
    when every row has an agent, as in every table of [_load_data]. *)
Theorem summary_totals (API_KEY : string) (an : Api.Analyzer)
    (rows : list NormalizedRecord) :
  Api.analyzer_df an = Frame rows →
  ∃ s, Api.get_dataset_summary API_KEY (Some an) (Some API_KEY) =
       Api.Http200 s
    ∧ Api.total_messages s = length rows
    ∧ (Api.total_transcripts s ≤ Api.total_messages s)%nat
    ∧ (rows ≠ [] → 1 ≤ Api.total_transcripts s)%nat
    ∧ (dict_total (Api.sentiment_distribution s) ≤ Api.total_messages s)%nat
    ∧ (dict_total (Api.turn_rating_distribution s) ≤ Api.total_messages s)%nat
    ∧ (Forall (fun r => agent (flat r) ≠ None) rows →
       dict_total (Api.messages_per_agent s) = Api.total_messages s).
Proof.
  intros Hdf. unfold Api.get_dataset_summary, Api.api_key_auth.
  rewrite decide_True by done. rewrite Hdf.
  eexists. split; [reflexivity|]. simpl.
  split; [done|]. split; [|split; [|split; [|split]]].
  - rewrite <-(length_fmap (transcript_id ∘ flat) rows).
    apply sublist_length, first_seen_sublist.
  - destruct rows as [|r rows]; [done|]. intros _.
    assert (transcript_id (flat r)
            ∈ unique (transcript_id ∘ flat <$> r :: rows)) as Hin
      by (apply (proj2 (unique_elem_of _ _)); rewrite fmap_cons; by left).
    destruct (unique _); [by apply elem_of_nil in Hin | simpl; lia].
  - rewrite dict_total_value_counts.
    rewrite <-(length_fmap (sentiment ∘ flat) rows).
    apply omap_id_length_le.
  - rewrite dict_total_value_counts.
    rewrite <-(length_fmap (turn_rating ∘ flat) rows).
    apply omap_id_length_le.
  - intros Hagents. rewrite dict_total_value_counts.
    by apply (omap_id_length_full (agent ∘ flat)).
Qed.

Lemma summary_totals_witness :
  ∃ s, Api.get_dataset_summary "AdityaSalagare"
         (Some {| Api.analyzer_df := Frame rows_three_agents;
                  Api.analyzer_summarizer := silent_summarizer |})
         (Some "AdityaSalagare") = Api.Http200 s
    ∧ Api.total_messages s = 3
    ∧ Api.total_transcripts s = 2
    ∧ dict_total (Api.sentiment_distribution s) = 2
    ∧ dict_total (Api.messages_per_agent s) = 3.
Proof.
  destruct (summary_totals "AdityaSalagare"
              {| Api.analyzer_df := Frame rows_three_agents;
                 Api.analyzer_summarizer := silent_summarizer |}
              rows_three_agents eq_refl)
    as (s & Hs & _).
  exists s. split; [exact Hs|].
  injection Hs as <-. vm_compute. done.
Defined.
